(** * fresh-cli: a command-line client for the Freshservice ticket API

    A shallow embedding of the three Python modules of the package
    ([fresh_cli.config], [fresh_cli.api], [fresh_cli.__main__]) and the
    properties its specification states about them.

    Layout:
    - [PyFloat] what Python does with a float: equality with integers and
                the text of [repr];
    - [Py]      the Python values that travel through the program (decoded
                JSON), the exceptions, and the built-in operations the code
                applies to values;
    - [Eff]     the HTTP exchange and the output stream, as a
                state-and-exception monad;
    - [Httpx], [Click]  the calls the code makes into these two libraries;
    - [Config]  config.py;
    - [Ticket], [FreshserviceClient]  the two classes of api.py;
    - [Main]    __main__.py;
    - [Wire], [Sample]  the vocabulary of the statements and sample data;
    - the properties.

    A JSON number with a fraction or an exponent decodes to a Python float;
    a float is here a [spec_float] of the standard library (sign, mantissa
    and exponent of a binary64 number, infinities, NaN).  One thing is
    outside the model: a Python string is a sequence of code points; here
    it is a [string], each character one code point below 256. *)

From Stdlib Require Import ZArith Ascii String SpecFloat.
From stdpp Require Import base option list strings pretty gmap.

Set Warnings "-register-all".

(* ===================================================================== *)
(** * Python floats                                                       *)
(* ===================================================================== *)

Module PyFloat.

(** A float is [S754_zero s], [S754_infinity s], [S754_nan] or
    [S754_finite s m e], the number [m * 2^e] with the sign [s] ([true]
    for a negative number).  In a binary64 number [m < 2^53],
    [-1074 <= e <= 971], and [2^52 <= m] unless [e = -1074]. *)

(** The magnitude [m * 2^e] as a fraction of two positive integers. *)
Definition fraction (m : positive) (e : Z) : Z * Z :=
  if (0 <=? e)%Z then (Z.pos m * 2 ^ e, 1)%Z else (Z.pos m, 2 ^ (- e))%Z.

(** The integer a float is equal to, if any. *)
Definition to_int (f : spec_float) : option Z :=
  match f with
  | S754_zero _ => Some 0%Z
  | S754_finite s m e =>
      let '(n, d) := fraction m e in
      if (n mod d =? 0)%Z
      then Some (if s then - (n / d) else n / d)%Z
      else None
  | S754_infinity _ | S754_nan => None
  end.

Definition is_zero (f : spec_float) : bool :=
  match f with S754_zero _ => true | _ => false end.

(** [f == g] for two floats. *)
Definition eqb (f g : spec_float) : bool :=
  match f, g with
  | S754_zero _, S754_zero _ => true
  | S754_infinity s, S754_infinity s' => Bool.eqb s s'
  | S754_finite s m e, S754_finite s' m' e' =>
      Bool.eqb s s'
      && (let '(n, d) := fraction m e in
          let '(n', d') := fraction m' e' in
          (n * d' =? n' * d)%Z)
  | _, _ => false
  end.

(** [10^p] times a fraction, for any integer [p]. *)
Definition scale10 (q : Z * Z) (p : Z) : Z * Z :=
  if (0 <=? p)%Z then (q.1 * 10 ^ p, q.2)%Z else (q.1, q.2 * 10 ^ (- p))%Z.

Definition decimal_digits (n : Z) : Z := Z.of_nat (String.length (pretty n)).

(** The [p] with [10^(p-1) <= n/d < 10^p]. *)
Definition decimal_exponent (q : Z * Z) : Z :=
  let '(n, d) := q in
  if (d <=? n)%Z then decimal_digits (n / d)
  else (1 - decimal_digits ((d + n - 1) / n - 1))%Z.

(** The digits and the position of the decimal point of the shortest
    decimal that reads back as the float [m * 2^e]: the one closest to it
    among the shortest. *)
Fixpoint shortest_from (fuel : nat) (k : Z) (m : positive) (e : Z) (p : Z)
  : Z * Z :=
  let v := fraction m e in
  (* half the distance to the next float below and above, as fractions
     over the denominator [4 * v.2] *)
  let below :=
    if (Z.pos m =? 2 ^ 52)%Z && (-1074 <? e)%Z then 1%Z else 2%Z in
  let unit := (* 2^e / 4 over the denominator 4 * v.2 *)
    (if (0 <=? e)%Z then 2 ^ e else 1)%Z in
  let lo := (4 * v.1 - below * unit)%Z in
  let hi := (4 * v.1 + 2 * unit)%Z in
  let den := (4 * v.2)%Z in
  (* a candidate [c * 10^(p-k)] as a fraction *)
  let inside (c : Z) : bool :=
    let '(cn, cd) := scale10 (c, 1%Z) (p - k) in
    if Z.even (Z.pos m)
    then (lo * cd <=? cn * den)%Z && (cn * den <=? hi * cd)%Z
    else (lo * cd <? cn * den)%Z && (cn * den <? hi * cd)%Z in
  let '(xn, xd) := scale10 v (k - p) in
  let down := (xn / xd)%Z in
  let up := (down + 1)%Z in
  let exact := (xn mod xd =? 0)%Z in
  (* twice the distance of v to down and to up, in units of 1/xd *)
  let nearer_down := (2 * (xn - down * xd) <=? xd)%Z in
  let pick :=
    if exact then Some down
    else match inside down, inside up with
         | true, true => Some (if nearer_down then down else up)
         | true, false => Some down
         | false, true => Some up
         | false, false => None
         end in
  match pick, fuel with
  | Some c, _ => (c, p - k)%Z
  | None, O => (if nearer_down then down else up, p - k)%Z
  | None, S fuel' => shortest_from fuel' (k + 1) m e p
  end.

Fixpoint strip_zeros (fuel : nat) (c x : Z) : Z * Z :=
  match fuel with
  | O => (c, x)
  | S fuel' => if (c mod 10 =? 0)%Z then strip_zeros fuel' (c / 10) (x + 1)
               else (c, x)
  end.

Fixpoint zeros (n : nat) : string :=
  match n with O => "" | S n' => String "0" (zeros n') end.

(** [repr] of a positive finite float from its digits and the position
    [decpt] of the decimal point: [0.DIGITS * 10^decpt]. *)
Definition lay_out (digits : string) (decpt : Z) : string :=
  let n := Z.of_nat (String.length digits) in
  if (decpt <=? -4)%Z || (16 <? decpt)%Z then
    let mantissa :=
      match digits with
      | String c EmptyString => String c ""
      | String c rest => String c ("." +:+ rest)
      | EmptyString => ""
      end in
    let x := (decpt - 1)%Z in
    let ax := pretty (Z.abs x) in
    mantissa +:+ "e" +:+ (if (x <? 0)%Z then "-" else "+")
      +:+ (if (String.length ax <? 2)%nat then "0" +:+ ax else ax)
  else if (decpt <=? 0)%Z then
    "0." +:+ zeros (Z.to_nat (- decpt)) +:+ digits
  else if (n <=? decpt)%Z then
    digits +:+ zeros (Z.to_nat (decpt - n)) +:+ ".0"
  else
    String.substring 0 (Z.to_nat decpt) digits +:+ "."
      +:+ String.substring (Z.to_nat decpt) (Z.to_nat (n - decpt)) digits.

(** [repr(f)], which is also [str(f)]. *)
Definition repr (f : spec_float) : string :=
  match f with
  | S754_nan => "nan"
  | S754_infinity s => if s then "-inf" else "inf"
  | S754_zero s => if s then "-0.0" else "0.0"
  | S754_finite s m e =>
      let p := decimal_exponent (fraction m e) in
      let '(c, x) := shortest_from 16 1 m e p in
      let '(c, x) := strip_zeros 20 c x in
      let digits := pretty c in
      (if s then "-" else "")
        +:+ lay_out digits (Z.of_nat (String.length digits) + x)
  end.

End PyFloat.

(* ===================================================================== *)
(** * Python values and built-ins                                         *)
(* ===================================================================== *)

Module Py.

(** What [response.json()] can return.  A [dict] keeps its items in
    insertion order, as Python does; its keys are distinct, and a lookup
    takes the first item with the key. *)
Inductive value : Type :=
| VNone
| VBool (b : bool)
| VInt (n : Z)
| VFloat (f : spec_float)
| VStr (s : string)
| VList (l : list value)
| VDict (d : list (string * value)).

Abbreviation dict := (list (string * value)).

(** The exceptions the program can meet.  [HTTPStatusError], [RequestError]
    and [JSONDecodeError] come from httpx, [ClickException], [UsageError]
    and [BadParameter] from click, the others from the interpreter. *)
Inductive exn : Type :=
| KeyError (key : string)
| TypeError
| AttributeError
| HTTPStatusError (status_code : Z)
| RequestError
| JSONDecodeError
| ClickException (message : string)
| UsageError (message : string)
| BadParameter (param : string).

(** A computation that returns or raises. *)
Inductive result (A : Type) : Type :=
| Ok (a : A)
| Raise (e : exn).
Arguments Ok {A} a.
Arguments Raise {A} e.

#[global] Instance result_ret : MRet result := λ A a, Ok a.
#[global] Instance result_bind : MBind result := λ A B f m,
  match m with Ok a => f a | Raise e => Raise e end.

(** ** Dictionaries *)

(** [d.get(key)]; [key in d] when the result is not [None]. *)
Fixpoint dict_lookup (key : string) (d : dict) : option value :=
  match d with
  | [] => None
  | (k, v) :: d' => if String.eqb k key then Some v else dict_lookup key d'
  end.

(** [d.get(key, dflt)]. *)
Definition dict_get (d : dict) (key : string) (dflt : value) : value :=
  default dflt (dict_lookup key d).

(** [d[key]]. *)
Definition dict_item (d : dict) (key : string) : result value :=
  match dict_lookup key d with
  | Some v => Ok v
  | None => Raise (KeyError key)
  end.

(** [d[key] = v]: the item is replaced where it is, or added at the end. *)
Fixpoint dict_set (d : dict) (key : string) (v : value) : dict :=
  match d with
  | [] => [(key, v)]
  | (k, v') :: d' =>
      if String.eqb k key then (k, v) :: d' else (k, v') :: dict_set d' key v
  end.

(** [table[key]] for a dictionary literal with string keys. *)
Definition str_table_item {A} (table : list (string * A)) (key : string)
  : result A :=
  match List.find (λ kv, String.eqb kv.1 key) table with
  | Some kv => Ok kv.2
  | None => Raise (KeyError key)
  end.

(** ** Truth value, equality, hashing *)

(** [bool(v)]. *)
Definition truthy (v : value) : bool :=
  match v with
  | VNone => false
  | VBool b => b
  | VInt n => negb (n =? 0)%Z
  | VFloat f => negb (PyFloat.is_zero f)
  | VStr s => negb (String.eqb s "")
  | VList l => negb (bool_decide (l = []))
  | VDict d => negb (bool_decide (d = []))
  end.

(** [bool(s)] for a string that may be [None]. *)
Definition truthy_str (s : option string) : bool :=
  match s with
  | Some k => negb (String.eqb k "")
  | None => false
  end.

(** [f == n] for a float and an integer: the float is that integer. *)
Definition float_eq_int (f : spec_float) (n : Z) : bool :=
  match PyFloat.to_int f with
  | Some k => (k =? n)%Z
  | None => false
  end.

(** [a == b].  A bool is an int ([True == 1]), a float equals the integer
    it is the value of ([2.0 == 2]), NaN equals nothing; dictionaries
    compare as maps, whatever the order of their items. *)
Fixpoint py_eq (a b : value) {struct a} : bool :=
  match a, b with
  | VNone, VNone => true
  | VBool x, VBool y => Bool.eqb x y
  | VBool x, VInt n => (Z.b2z x =? n)%Z
  | VInt m, VBool y => (m =? Z.b2z y)%Z
  | VInt m, VInt n => (m =? n)%Z
  | VFloat f, VFloat g => PyFloat.eqb f g
  | VFloat f, VInt n => float_eq_int f n
  | VInt m, VFloat g => float_eq_int g m
  | VFloat f, VBool y => float_eq_int f (Z.b2z y)
  | VBool x, VFloat g => float_eq_int g (Z.b2z x)
  | VStr s, VStr t => String.eqb s t
  | VList l, VList l' =>
      (fix go (l l' : list value) : bool :=
         match l, l' with
         | [], [] => true
         | x :: xs, y :: ys => py_eq x y && go xs ys
         | _, _ => false
         end) l l'
  | VDict d, VDict d' =>
      (length d =? length d')%nat &&
      forallb (λ kv, match dict_lookup kv.1 d' with
                     | Some v' => py_eq kv.2 v'
                     | None => false
                     end) d
  | _, _ => false
  end.

(** Lists and dictionaries cannot be keys of a dictionary. *)
Definition hashable (v : value) : bool :=
  match v with
  | VList _ | VDict _ => false
  | _ => true
  end.

(** [table.get(v, dflt)] for a dictionary literal with integer keys:
    [True] and [False] find the keys 1 and 0, a float finds the integer it
    equals, an unhashable [v] raises. *)
Definition int_table_get {A} (table : list (Z * A)) (v : value) (dflt : A)
  : result A :=
  let find (n : Z) :=
    default dflt (snd <$> List.find (λ kv, (kv.1 =? n)%Z) table) in
  match v with
  | VInt n => Ok (find n)
  | VBool b => Ok (find (Z.b2z b))
  | VFloat f =>
      Ok (match PyFloat.to_int f with Some n => find n | None => dflt end)
  | VNone | VStr _ => Ok dflt
  | VList _ | VDict _ => Raise TypeError
  end.

(** ** Text *)

(** [s * n] for a one-character [s]. *)
Fixpoint replicate_char (n : nat) (c : ascii) : string :=
  match n with
  | O => ""
  | S n' => String c (replicate_char n' c)
  end.

(** [s[:n]]. *)
Definition str_prefix (n : nat) (s : string) : string := String.substring 0 n s.

(** [format(s, "<w")]: left-aligned in a field of [w] characters, never cut. *)
Definition ljust (w : nat) (s : string) : string :=
  s +:+ replicate_char (w - String.length s) " ".

Definition hex_digit (n : nat) : ascii :=
  default "0"%char (String.get n "0123456789abcdef").

Definition double_quote : ascii := ascii_of_nat 34.

Fixpoint str_contains (c : ascii) (s : string) : bool :=
  match s with
  | EmptyString => false
  | String c' s' => Ascii.eqb c c' || str_contains c s'
  end.

(** One character of [repr(s)], inside the quote character [q]. *)
Definition repr_char (q c : ascii) : string :=
  let n := nat_of_ascii c in
  if Ascii.eqb c q || Ascii.eqb c "\" then String "\" (String c "")
  else if (n =? 9)%nat then "\t"
  else if (n =? 10)%nat then "\n"
  else if (n =? 13)%nat then "\r"
  else if (n <? 32)%nat || (n =? 127)%nat
          || ((127 <? n)%nat && (n <? 161)%nat) || (n =? 173)%nat
       then "\x" +:+ String (hex_digit (n / 16)) (String (hex_digit (n mod 16)) "")
  else String c "".

(** [repr(s)] of a string: single quotes, unless the text has a single
    quote and no double quote. *)
Definition repr_str (s : string) : string :=
  let q := if str_contains "'" s && negb (str_contains double_quote s)
           then double_quote else "'"%char in
  String q
    ((fix go (s : string) : string :=
        match s with
        | EmptyString => String q ""
        | String c s' => repr_char q c +:+ go s'
        end) s).

Fixpoint join (sep : string) (l : list string) : string :=
  match l with
  | [] => ""
  | [s] => s
  | s :: l' => s +:+ sep +:+ join sep l'
  end.

(** [repr(v)]. *)
Fixpoint repr (v : value) : string :=
  match v with
  | VNone => "None"
  | VBool true => "True"
  | VBool false => "False"
  | VInt n => pretty n
  | VFloat f => PyFloat.repr f
  | VStr s => repr_str s
  | VList l => "[" +:+ join ", " (map repr l) +:+ "]"
  | VDict d =>
      "{" +:+ join ", " (map (λ kv, repr_str kv.1 +:+ ": " +:+ repr kv.2) d) +:+ "}"
  end.

(** [str(v)], which is also what an f-string field [{v}] shows. *)
Definition str (v : value) : string :=
  match v with
  | VStr s => s
  | _ => repr v
  end.

(** [f"{v:<w}"].  [None], lists and dictionaries take no format
    specification; a bool is formatted as the integer it is, a float as
    [str] shows it. *)
Definition format_left (w : nat) (v : value) : result string :=
  match v with
  | VStr s => Ok (ljust w s)
  | VInt n => Ok (ljust w (pretty n))
  | VBool b => Ok (ljust w (pretty (Z.b2z b)))
  | VFloat f => Ok (ljust w (PyFloat.repr f))
  | VNone | VList _ | VDict _ => Raise TypeError
  end.

(** [len(v)]. *)
Definition len (v : value) : result nat :=
  match v with
  | VStr s => Ok (String.length s)
  | VList l => Ok (length l)
  | VDict d => Ok (length d)
  | VNone | VBool _ | VInt _ | VFloat _ => Raise TypeError
  end.

(** [xs[:stop]] for an integer [stop]: a negative [stop] counts from the
    end. *)
Definition slice_to {A} (stop : Z) (xs : list A) : list A :=
  if (0 <=? stop)%Z then take (Z.to_nat stop) xs
  else take (length xs - Z.to_nat (- stop)) xs.

(** [v[:n] + suffix] for a literal string [suffix]: only a string can be
    sliced and then joined to a string (the slice of a list cannot be added
    to a string, and a dictionary has no slices). *)
Definition slice_concat (v : value) (n : nat) (suffix : string) : result value :=
  match v with
  | VStr s => Ok (VStr (str_prefix n s +:+ suffix))
  | _ => Raise TypeError
  end.

(** The items a [for] loop or a comprehension draws from [v]. *)
Definition iterate (v : value) : result (list value) :=
  match v with
  | VList l => Ok l
  | VStr s => Ok ((λ c, VStr (String c "")) <$> String.list_ascii_of_string s)
  | VDict d => Ok ((λ kv, VStr kv.1) <$> d)
  | VNone | VBool _ | VInt _ | VFloat _ => Raise TypeError
  end.

End Py.

(* ===================================================================== *)
(** * Effects: the HTTP exchange and the output stream                    *)
(* ===================================================================== *)

Module Eff.
Import Py.

Inductive http_method : Type := GET | PUT.

(** A request as the httpx client of [FreshserviceClient] sends it. *)
Record request : Type := {
  method : http_method;
  url : string;
  auth : string * string;
  headers : list (string * string);
  json : option value;
}.

(** What the other side does with a request: no response at all (the
    network failed), or a response with a status code and a body; the body
    is [None] when it is not JSON text. *)
Inductive reply : Type :=
| NoResponse
| Response (status_code : Z) (body : option value).

(** The world a command runs in: the server it talks to, the requests
    sent so far, and the lines written to standard output so far. *)
Record world : Type := {
  server : request → reply;
  sent : list request;
  stdout : list string;
}.

(** The world once a request has left, and once a line has been written. *)
Definition sending (r : request) (w : world) : world :=
  {| server := server w; sent := sent w ++ [r]; stdout := stdout w |}.

Definition printing (lines : list string) (w : world) : world :=
  {| server := server w; sent := sent w; stdout := stdout w ++ lines |}.

(** A command: from a world to a result, or an exception, and a world. *)
Record IO (A : Type) : Type := MkIO { run : world → result A * world }.
Arguments MkIO {A} run.
Arguments run {A} _ _.

#[global] Instance IO_ret : MRet IO := λ A a, MkIO (λ w, (Ok a, w)).
#[global] Instance IO_bind : MBind IO := λ A B f m,
  MkIO (λ w, match run m w with
             | (Ok a, w') => run (f a) w'
             | (Raise e, w') => (Raise e, w')
             end).

Definition raise {A} (e : exn) : IO A := MkIO (λ w, (Raise e, w)).

Definition lift {A} (r : result A) : IO A := MkIO (λ w, (r, w)).

(** [try: body  except Exception as e: handler(e)]. *)
Definition try_except {A} (body : IO A) (handler : exn → IO A) : IO A :=
  MkIO (λ w, match run body w with
             | (Raise e, w') => run (handler e) w'
             | r => r
             end).

(** [for x in xs: body(x)]. *)
Fixpoint for_each {A} (xs : list A) (body : A → IO unit) : IO unit :=
  match xs with
  | [] => mret tt
  | x :: xs' => body x ;; for_each xs' body
  end.

End Eff.

(** ** httpx *)

Module Httpx.
Import Py Eff.

(** [httpx.Client(auth=..., headers=...)]; the timeout is left out. *)
Record Client : Type := {
  client_auth : string * string;
  client_headers : list (string * string);
}.

Record response : Type := {
  status_code : Z;
  content : option value;
}.

Definition build_request (c : Client) (m : http_method) (url : string)
    (json : option value) : Eff.request :=
  {| method := m; url := url; auth := client_auth c;
     headers := client_headers c; Eff.json := json |}.

Definition request (c : Client) (m : http_method) (url : string)
    (json : option value) : IO response :=
  MkIO (λ w,
    let r := build_request c m url json in
    match server w r with
    | NoResponse => (Raise RequestError, sending r w)
    | Response code body =>
        (Ok {| status_code := code; content := body |}, sending r w)
    end).

Definition get (c : Client) (url : string) : IO response :=
  request c GET url None.

Definition put (c : Client) (url : string) (json : value) : IO response :=
  request c PUT url (Some json).

Definition is_success (r : response) : bool :=
  (200 <=? status_code r)%Z && (status_code r <=? 299)%Z.

(** [response.raise_for_status()]: an [HTTPStatusError] for every status
    outside 200..299. *)
Definition raise_for_status (r : response) : IO unit :=
  if is_success r then mret tt else raise (HTTPStatusError (status_code r)).

(** [response.json()]. *)
Definition json (r : response) : IO value :=
  match content r with
  | Some v => mret v
  | None => raise JSONDecodeError
  end.

End Httpx.

(** ** click *)

Module Click.
Import Py Eff.

(** [click.echo(message)]: one line on standard output. *)
Definition echo (message : string) : IO unit :=
  MkIO (λ w, (Ok tt, printing [message] w)).

(** [click.echo(v)] for a value: [None] gives an empty line, anything that
    is not a string is shown by [str]. *)
Definition echo_text (v : value) : string :=
  match v with
  | VNone => ""
  | _ => str v
  end.

Definition echo_value (v : value) : IO unit := echo (echo_text v).

(** [click.Choice(choices)] and [click.IntRange(lo, hi)], applied to an
    option that was given. *)
Definition Choice (param : string) (choices : list string)
    (v : option string) : IO unit :=
  match v with
  | Some s => if bool_decide (s ∈ choices) then mret tt
              else raise (BadParameter param)
  | None => mret tt
  end.

Definition IntRange (param : string) (lo hi : Z) (v : option Z) : IO unit :=
  match v with
  | Some n => if (lo <=? n)%Z && (n <=? hi)%Z then mret tt
              else raise (BadParameter param)
  | None => mret tt
  end.

(** What the process writes to standard error when it ends. *)
Inductive stderr_text : Type :=
| Silent
| ErrorLine (message : string)   (* the one line  Error: message  *)
| UsageAndError (e : exn)        (* the usage text, then an error line *)
| Traceback (e : exn).           (* the interpreter's traceback of e *)

Record exit : Type := { code : Z; stderr : stderr_text }.

(** How a click program ends (standalone mode): a [ClickException] is shown
    as one line and the exit code is 1, a usage error exits with 2; any
    other exception is not click's, leaves the program uncaught, and the
    interpreter prints its traceback and exits with 1. *)
Definition finish (r : result unit) : exit :=
  match r with
  | Ok _ => {| code := 0; stderr := Silent |}
  | Raise (ClickException m) => {| code := 1; stderr := ErrorLine m |}
  | Raise (UsageError m) => {| code := 2; stderr := UsageAndError (UsageError m) |}
  | Raise (BadParameter p) => {| code := 2; stderr := UsageAndError (BadParameter p) |}
  | Raise e => {| code := 1; stderr := Traceback e |}
  end.

End Click.

(* ===================================================================== *)
(** * config.py                                                           *)
(* ===================================================================== *)

Module Config.

(** The object's two attributes; [api_key] is [None] when the variable is
    not set. *)
Record t : Type := {
  api_key : option string;
  domain : string;
}.

(** The process state the methods work on: the object and [os.environ]. *)
Record state : Type := {
  self : t;
  environ : gmap string string;
}.

(** [os.getenv(name)] and [os.getenv(name, dflt)]. *)
Definition getenv (env : gmap string string) (name : string) : option string :=
  env !! name.

Definition getenv_default (env : gmap string string) (name dflt : string)
  : string :=
  default dflt (env !! name).

Definition __init__ (env : gmap string string) : t :=
  {| api_key := getenv env "FRESHSERVICE_API_KEY";
     domain := getenv_default env "FRESHSERVICE_DOMAIN" "freshservice.com" |}.

Definition load_from_env (st : state) : bool * state :=
  let api_key := getenv (environ st) "FRESHSERVICE_API_KEY" in
  let domain :=
    getenv_default (environ st) "FRESHSERVICE_DOMAIN" "freshservice.com" in
  (Py.truthy_str api_key,
   {| self := {| api_key := api_key; domain := domain |};
      environ := environ st |}).


End Config.

(* ===================================================================== *)
(** * api.py                                                              *)
(* ===================================================================== *)

Module Ticket.
Import Py.

(** The attributes hold whatever the response held: Python checks no
    annotation. *)
Record t : Type := {
  id : value;
  subject : value;
  description : value;
  status : value;
  priority : value;
  created_at : value;
  updated_at : value;
  requester_id : value;
  responder_id : value;
}.

(** [Ticket.from_dict(data)].  [data["id"]] raises [KeyError] on a
    dictionary without the key and [TypeError] on anything that is not a
    dictionary. *)
Definition from_dict (data : value) : result t :=
  match data with
  | VDict d =>
      id ← dict_item d "id";
      mret {| id := id;
              subject := dict_get d "subject" (VStr "");
              description := dict_get d "description" (VStr "");
              status := dict_get d "status" (VInt 0);
              priority := dict_get d "priority" (VInt 0);
              created_at := dict_get d "created_at" (VStr "");
              updated_at := dict_get d "updated_at" (VStr "");
              requester_id := dict_get d "requester_id" (VInt 0);
              responder_id := dict_get d "responder_id" VNone |}
  | _ => Raise TypeError
  end.

End Ticket.

Module FreshserviceClient.
Import Py Eff.

Record t : Type := {
  api_key : string;
  base_url : string;
  client : Httpx.Client;
}.

Definition __init__ (api_key domain : string) : t :=
  {| api_key := api_key;
     base_url := "https://" +:+ domain +:+ "/api/v2";
     client := {| Httpx.client_auth := (api_key, "X");
                  Httpx.client_headers := [("Content-Type", "application/json")] |} |}.

(** [[Ticket.from_dict(ticket) for ticket in data.get("tickets", [])]] for
    the decoded body [data]: only a dictionary has [get]. *)
Definition parse_tickets (data : value) : result (list Ticket.t) :=
  match data with
  | VDict d =>
      items ← iterate (dict_get d "tickets" (VList []));
      mapM Ticket.from_dict items
  | _ => Raise AttributeError
  end.

(** The two comprehensions under [if filters:]. *)
Definition apply_filters (filters : option dict) (tickets : list Ticket.t)
  : list Ticket.t :=
  match filters with
  | Some f =>
      if truthy (VDict f) then
        let tickets :=
          match dict_lookup "status" f with
          | Some v => List.filter (λ t, py_eq (Ticket.status t) v) tickets
          | None => tickets
          end in
        let tickets :=
          match dict_lookup "priority" f with
          | Some v => List.filter (λ t, py_eq (Ticket.priority t) v) tickets
          | None => tickets
          end in
        tickets
      else tickets
  | None => tickets
  end.

Definition list_tickets (self : t) (filters : option dict) (limit : Z)
  : IO (list Ticket.t) :=
  response ← Httpx.get (client self) (base_url self +:+ "/tickets");
  Httpx.raise_for_status response;;
  data ← Httpx.json response;
  tickets ← lift (parse_tickets data);
  mret (slice_to limit (apply_filters filters tickets)).

(** [Ticket.from_dict(data["ticket"])] for the decoded body [data]. *)
Definition parse_ticket (data : value) : result Ticket.t :=
  match data with
  | VDict d => ticket ← dict_item d "ticket"; Ticket.from_dict ticket
  | _ => Raise TypeError
  end.

Definition get_ticket (self : t) (ticket_id : Z) : IO Ticket.t :=
  response ← Httpx.get (client self)
               (base_url self +:+ "/tickets/" +:+ pretty ticket_id);
  Httpx.raise_for_status response;;
  data ← Httpx.json response;
  lift (parse_ticket data).

Definition update_ticket_status (self : t) (ticket_id : Z) (status : Z)
  : IO unit :=
  let payload := VDict [("status", VInt status)] in
  response ← Httpx.put (client self)
               (base_url self +:+ "/tickets/" +:+ pretty ticket_id) payload;
  Httpx.raise_for_status response.

End FreshserviceClient.

(* ===================================================================== *)
(** * __main__.py                                                         *)
(* ===================================================================== *)

Module Main.
Import Py Eff.

(** [ctx.obj]. *)
Record obj : Type := {
  client : FreshserviceClient.t;
  config : Config.t;
}.

Section Commands.

(** [str(e)] for an exception: the text httpx or the interpreter gave it.
    It is not written in this package, so the commands take it as given. *)
Variable exc_str : exn → string.

Definition cli (environ : gmap string string) (api_key : option string)
    (domain : string) : IO obj :=
  if negb (truthy_str api_key) then
    raise (UsageError
      ("API key is required. Set FRESHSERVICE_API_KEY environment variable "
       +:+ "or use the --api-key option."))
  else
    mret {| client := FreshserviceClient.__init__ (default "" api_key) domain;
            config := Config.__init__ environ |}.

(** The text of one table row: the body of the [for] loop of [list], up
    to the argument of [click.echo]. *)
Definition list_row (ticket : Ticket.t) : result string :=
  status_display ←
    int_table_get [(2, "Open"); (3, "Pending"); (4, "Resolved"); (5, "Closed")]%Z
      (Ticket.status ticket) (str (Ticket.status ticket));
  priority_display ←
    int_table_get [(1, "Low"); (2, "Medium"); (3, "High"); (4, "Urgent")]%Z
      (Ticket.priority ticket) (str (Ticket.priority ticket));
  n ← len (Ticket.subject ticket);
  subject ← (if (40 <? n)%nat
             then slice_concat (Ticket.subject ticket) 37 "..."
             else Ok (Ticket.subject ticket));
  c1 ← format_left 10 (Ticket.id ticket);
  c2 ← format_left 40 subject;
  mret (c1 +:+ " " +:+ c2 +:+ " " +:+ ljust 12 status_display
           +:+ " " +:+ ljust 10 priority_display).

(** The filters [list] builds from its options. *)
Definition list_filters (status : option string) (priority : option Z)
  : result dict :=
  let filters := [] in
  filters ←
    (if truthy_str status then
       let status_map :=
         [("open", 2); ("pending", 3); ("resolved", 4); ("closed", 5)]%Z in
       code ← str_table_item status_map (default "" status);
       mret (dict_set filters "status" (VInt code))
     else mret filters);
  mret (match priority with
        | Some p => if negb (p =? 0)%Z
                    then dict_set filters "priority" (VInt p) else filters
        | None => filters
        end).

Definition list (o : obj) (status : option string) (priority : option Z)
    (limit : Z) : IO unit :=
  let client := client o in
  filters ← lift (list_filters status priority);
  tickets ← FreshserviceClient.list_tickets client (Some filters) limit;
  if bool_decide (tickets = []) then
    Click.echo "No tickets found."
  else
    Click.echo
      "ID         Subject                                    Status       Priority   ";;
    Click.echo (replicate_char 72 "-");;
    for_each tickets (λ ticket,
      row ← lift (list_row ticket);
      Click.echo row).

Definition view (o : obj) (ticket_id : Z) : IO unit :=
  let client := client o in
  ticket ← try_except (FreshserviceClient.get_ticket client ticket_id)
             (λ e, raise (ClickException
                            ("Failed to retrieve ticket: " +:+ exc_str e)));
  let status_map :=
    [(2, VStr "Open"); (3, VStr "Pending"); (4, VStr "Resolved");
     (5, VStr "Closed")]%Z in
  let priority_map :=
    [(1, VStr "Low"); (2, VStr "Medium"); (3, VStr "High");
     (4, VStr "Urgent")]%Z in
  Click.echo ("Ticket #" +:+ str (Ticket.id ticket));;
  Click.echo (replicate_char 60 "=");;
  Click.echo ("Subject: " +:+ str (Ticket.subject ticket));;
  Click.echo "Description:";;
  Click.echo_value (Ticket.description ticket);;
  Click.echo "";;
  Click.echo "Details:";;
  st ← lift (int_table_get status_map (Ticket.status ticket)
               (Ticket.status ticket));
  Click.echo ("  Status:    " +:+ str st);;
  pr ← lift (int_table_get priority_map (Ticket.priority ticket)
               (Ticket.priority ticket));
  Click.echo ("  Priority:  " +:+ str pr);;
  Click.echo ("  Created:   " +:+ str (Ticket.created_at ticket));;
  Click.echo ("  Updated:   " +:+ str (Ticket.updated_at ticket));;
  Click.echo ("  Requester: " +:+ str (Ticket.requester_id ticket));;
  let assignee :=
    if truthy (Ticket.responder_id ticket)
    then Ticket.responder_id ticket else VStr "Unassigned" in
  Click.echo ("  Assignee:  " +:+ str assignee).

Definition status (o : obj) (ticket_id : Z) (status : string) : IO unit :=
  let client := client o in
  let status_map :=
    [("open", 2); ("pending", 3); ("resolved", 4); ("closed", 5)]%Z in
  try_except
    (code ← lift (str_table_item status_map status);
     FreshserviceClient.update_ticket_status client ticket_id code;;
     Click.echo ("Ticket #" +:+ pretty ticket_id +:+ " status updated to "
                 +:+ status +:+ "."))
    (λ e, raise (ClickException
                   ("Failed to update ticket status: " +:+ exc_str e))).

(** The command line after click has split it.  click checks the options
    of a command in the order in which they were given, and after them the
    ones that were not given: [List] is [list] with [--status] before
    [--priority] or with at most one of the two, [ListPriorityFirst] is
    [list] with [--priority] given before [--status]. *)
Inductive command : Type :=
| List (status : option string) (priority : option Z) (limit : Z)
| ListPriorityFirst (priority : Z) (status : string) (limit : Z)
| View (ticket_id : Z)
| Status (ticket_id : Z) (status : string).

Record argv : Type := {
  opt_api_key : option string;
  opt_domain : option string;
  cmd : command;
}.

(** The value of an option that has an [envvar]: what was given, else the
    variable when it is set and not empty. *)
Definition option_value (given : option string)
    (environ : gmap string string) (envvar : string) : option string :=
  match given with
  | Some v => Some v
  | None => match environ !! envvar with
            | Some v => if String.eqb v "" then None else Some v
            | None => None
            end
  end.

Definition status_choices : Datatypes.list string :=
  ["open"; "pending"; "resolved"; "closed"].

(** [cli()]: the group callback, then the command with its options
    checked as the decorators say. *)
Definition main (environ : gmap string string) (a : argv) : IO unit :=
  let api_key := option_value (opt_api_key a) environ "FRESHSERVICE_API_KEY" in
  let domain :=
    default "freshservice.com"
      (option_value (opt_domain a) environ "FRESHSERVICE_DOMAIN") in
  o ← cli environ api_key domain;
  match cmd a with
  | List s p limit =>
      Click.Choice "status" status_choices s;;
      Click.IntRange "priority" 1 4 p;;
      list o s p limit
  | ListPriorityFirst p s limit =>
      Click.IntRange "priority" 1 4 (Some p);;
      Click.Choice "status" status_choices (Some s);;
      list o (Some s) (Some p) limit
  | View ticket_id => view o ticket_id
  | Status ticket_id s =>
      Click.Choice "status" status_choices (Some s);;
      status o ticket_id s
  end.

(** The process: what it wrote to standard output, its exit code and
    what went to standard error. *)
Definition process (environ : gmap string string) (a : argv) (w : world)
  : Datatypes.list string * Click.exit :=
  let '(r, w') := run (main environ a) w in
  (stdout w', Click.finish r).

End Commands.

End Main.

(* ===================================================================== *)
(** * Vocabulary of the statements                                        *)
(* ===================================================================== *)

Module Wire.
Import Py Eff.

(** The three requests the client can send. *)
Definition list_request (self : FreshserviceClient.t) : request :=
  Httpx.build_request (FreshserviceClient.client self) GET
    (FreshserviceClient.base_url self +:+ "/tickets") None.

Definition get_request (self : FreshserviceClient.t) (ticket_id : Z)
  : request :=
  Httpx.build_request (FreshserviceClient.client self) GET
    (FreshserviceClient.base_url self +:+ "/tickets/" +:+ pretty ticket_id)
    None.

Definition put_request (self : FreshserviceClient.t) (ticket_id : Z)
    (status : Z) : request :=
  Httpx.build_request (FreshserviceClient.client self) PUT
    (FreshserviceClient.base_url self +:+ "/tickets/" +:+ pretty ticket_id)
    (Some (VDict [("status", VInt status)])).

(** A status code in 200..299. *)
Definition success (code : Z) : bool := (200 <=? code)%Z && (code <=? 299)%Z.

(** What a client operation makes of a reply, given how it reads the body
    of a successful one. *)
Definition outcome {A} (read : option value → result A) (r : reply)
  : result A :=
  match r with
  | NoResponse => Raise RequestError
  | Response code body =>
      if success code then read body else Raise (HTTPStatusError code)
  end.

Definition decoded {A} (parse : value → result A) (body : option value)
  : result A :=
  match body with
  | Some data => parse data
  | None => Raise JSONDecodeError
  end.

(** The lines [view] prints for a ticket whose status and priority the
    display tables accept. *)
Definition view_lines (t : Ticket.t) (st pr : value) : list string :=
  [ "Ticket #" +:+ str (Ticket.id t);
    replicate_char 60 "=";
    "Subject: " +:+ str (Ticket.subject t);
    "Description:";
    Click.echo_text (Ticket.description t);
    "";
    "Details:";
    "  Status:    " +:+ str st;
    "  Priority:  " +:+ str pr;
    "  Created:   " +:+ str (Ticket.created_at t);
    "  Updated:   " +:+ str (Ticket.updated_at t);
    "  Requester: " +:+ str (Ticket.requester_id t);
    "  Assignee:  "
      +:+ str (if truthy (Ticket.responder_id t)
               then Ticket.responder_id t else VStr "Unassigned") ].

(** What [list] prints for tickets: the heading, a rule of 72 dashes, and
    the rows. *)
Definition heading : string :=
  "ID         Subject                                    Status       Priority   ".

Definition table (rows : list string) : list string :=
  heading :: replicate_char 72 "-" :: rows.

(** The keys [Ticket.from_dict] reads. *)
Definition ticket_keys : list string :=
  ["id"; "subject"; "description"; "status"; "priority"; "created_at";
   "updated_at"; "requester_id"; "responder_id"].

(** A ticket passes the filters [f]: its status equals the entry of
    "status", when there is one, and its priority the entry of "priority",
    when there is one. *)
Definition passes (f : dict) (t : Ticket.t) : bool :=
  match dict_lookup "status" f with
  | Some v => py_eq (Ticket.status t) v
  | None => true
  end
  && match dict_lookup "priority" f with
     | Some v => py_eq (Ticket.priority t) v
     | None => true
     end.

(** The options of a command are among those its decorators allow. *)
Definition allowed (c : Main.command) : bool :=
  match c with
  | Main.List s p _ =>
      match s with
      | Some name => bool_decide (name ∈ Main.status_choices)
      | None => true
      end
      && match p with
         | Some n => (1 <=? n)%Z && (n <=? 4)%Z
         | None => true
         end
  | Main.ListPriorityFirst n name _ =>
      (1 <=? n)%Z && (n <=? 4)%Z
      && bool_decide (name ∈ Main.status_choices)
  | Main.View _ => true
  | Main.Status _ name => bool_decide (name ∈ Main.status_choices)
  end.

(** [list] can make a row of the ticket: the subject is a string, the id
    takes a format specification, and the status and the priority can be
    looked up in a dictionary. *)
Definition showable (t : Ticket.t) : bool :=
  match Ticket.subject t with VStr _ => true | _ => false end
  && match Ticket.id t with
     | VStr _ | VInt _ | VBool _ | VFloat _ => true
     | _ => false
     end
  && hashable (Ticket.status t)
  && hashable (Ticket.priority t).

(** The usage error of [cli]. *)
Definition missing_key : exn :=
  UsageError
    ("API key is required. Set FRESHSERVICE_API_KEY environment variable "
     +:+ "or use the --api-key option.").

End Wire.

(** ** Sample data *)

Module Sample.
Import Py Eff.

Definition client : FreshserviceClient.t :=
  FreshserviceClient.__init__ "secret" "acme.freshservice.com".

Definition ctx : Main.obj :=
  {| Main.client := client; Main.config := Config.__init__ ∅ |}.

(** A ticket object of a response, and the ticket made of it. *)
Definition ticket_json (id status : Z) (subject : string) : value :=
  VDict [("id", VInt id); ("subject", VStr subject); ("status", VInt status);
         ("priority", VInt 1); ("spam", VBool false)].

Definition ticket (id status : Z) (subject : string) : Ticket.t :=
  {| Ticket.id := VInt id; Ticket.subject := VStr subject;
     Ticket.description := VStr ""; Ticket.status := VInt status;
     Ticket.priority := VInt 1; Ticket.created_at := VStr "";
     Ticket.updated_at := VStr ""; Ticket.requester_id := VInt 0;
     Ticket.responder_id := VNone |}.

(** A body with three tickets, of statuses 2, 5 and 5. *)
Definition three_tickets : value :=
  VDict [("tickets",
          VList [ticket_json 1 2 "Printer offline";
                 ticket_json 2 5 "VPN drops every hour";
                 ticket_json 3 5 "New laptop"])].

(** A body with two tickets, the subject of the first longer than 40
    characters, the second without status and priority. *)
Definition long_subject : value :=
  VDict [("tickets",
          VList [VDict [("id", VInt 12); ("status", VInt 2);
                        ("priority", VInt 1);
                        ("subject",
                         VStr "The printer on the third floor prints only blank pages")];
                 VDict [("id", VInt 13); ("subject", VStr "Short")]])].

(** A body whose second ticket object has no "id". *)
Definition one_without_id : value :=
  VDict [("tickets",
          VList [VDict [("id", VInt 1); ("status", VInt 2)];
                 VDict [("status", VInt 5)]])].

(** A body with one ticket, whose responder is [responder]. *)
Definition one_ticket (responder : value) : value :=
  VDict [("ticket",
          VDict [("id", VInt 7); ("subject", VStr "Printer offline");
                 ("status", VInt 3); ("priority", VInt 2);
                 ("requester_id", VInt 11); ("responder_id", responder)])].

(** The ticket made of that body. *)
Definition assigned (responder : value) : Ticket.t :=
  {| Ticket.id := VInt 7; Ticket.subject := VStr "Printer offline";
     Ticket.description := VStr ""; Ticket.status := VInt 3;
     Ticket.priority := VInt 2; Ticket.created_at := VStr "";
     Ticket.updated_at := VStr ""; Ticket.requester_id := VInt 11;
     Ticket.responder_id := responder |}.

(** A server that answers every request with the same status and body,
    and a world that starts with it. *)
Definition answering (code : Z) (body : option value) : world :=
  {| server := λ _, Response code body; sent := []; stdout := [] |}.

(** The text of an exception, for the examples. *)
Definition exc_str (e : exn) : string :=
  match e with
  | HTTPStatusError code => "HTTP status " +:+ pretty code
  | KeyError key => repr_str key
  | _ => "error"
  end.

Definition argv (cmd : Main.command) : Main.argv :=
  {| Main.opt_api_key := Some "secret"; Main.opt_domain := None;
     Main.cmd := cmd |}.

End Sample.

(* ===================================================================== *)
(** * Properties                                                          *)
(* ===================================================================== *)

Import Py Eff.

(** ** How the client operations run *)

Lemma run_bind {A B} (m : IO A) (f : A → IO B) (w : world) :
  run (m ≫= f) w =
  match run m w with
  | (Ok a, w') => run (f a) w'
  | (Raise e, w') => (Raise e, w')
  end.
Proof. reflexivity. Qed.

Lemma run_list_tickets (self : FreshserviceClient.t) (filters : option dict)
    (limit : Z) (w : world) :
  run (FreshserviceClient.list_tickets self filters limit) w =
  (Wire.outcome
     (Wire.decoded (λ data,
        tickets ← FreshserviceClient.parse_tickets data;
        mret (slice_to limit (FreshserviceClient.apply_filters filters tickets))))
     (server w (Wire.list_request self)),
   sending (Wire.list_request self) w).
Proof.
  unfold FreshserviceClient.list_tickets, Httpx.get, Httpx.request,
    Wire.list_request. rewrite run_bind. simpl.
  unfold Wire.outcome.
  destruct (server w _) as [|code body]; [reflexivity|].
  unfold Httpx.raise_for_status, Httpx.is_success, Wire.success. simpl.
  destruct ((200 <=? code)%Z && (code <=? 299)%Z); [|reflexivity].
  simpl. destruct body as [data|]; [|reflexivity]. simpl.
  destruct (FreshserviceClient.parse_tickets data); reflexivity.
Qed.

Lemma run_get_ticket (self : FreshserviceClient.t) (ticket_id : Z)
    (w : world) :
  run (FreshserviceClient.get_ticket self ticket_id) w =
  (Wire.outcome (Wire.decoded FreshserviceClient.parse_ticket)
     (server w (Wire.get_request self ticket_id)),
   sending (Wire.get_request self ticket_id) w).
Proof.
  unfold FreshserviceClient.get_ticket, Httpx.get, Httpx.request,
    Wire.get_request. rewrite run_bind. simpl.
  unfold Wire.outcome.
  destruct (server w _) as [|code body]; [reflexivity|].
  unfold Httpx.raise_for_status, Httpx.is_success, Wire.success. simpl.
  destruct ((200 <=? code)%Z && (code <=? 299)%Z); [|reflexivity].
  simpl. destruct body as [data|]; reflexivity.
Qed.

Lemma run_update_ticket_status (self : FreshserviceClient.t)
    (ticket_id status : Z) (w : world) :
  run (FreshserviceClient.update_ticket_status self ticket_id status) w =
  (Wire.outcome (λ _, Ok tt)
     (server w (Wire.put_request self ticket_id status)),
   sending (Wire.put_request self ticket_id status) w).
Proof.
  unfold FreshserviceClient.update_ticket_status, Httpx.put, Httpx.request,
    Wire.put_request. rewrite run_bind. simpl.
  unfold Wire.outcome.
  destruct (server w _) as [|code body]; [reflexivity|].
  unfold Httpx.raise_for_status, Httpx.is_success, Wire.success. simpl.
  destruct ((200 <=? code)%Z && (code <=? 299)%Z); reflexivity.
Qed.

(** ** Dictionaries and [Ticket.from_dict] *)

Lemma dict_lookup_None (key : string) (d : dict) :
  dict_lookup key d = None ↔ key ∉ d.*1.
Proof.
  induction d as [|[k v] d IH]; simpl.
  - split; [intros _; apply not_elem_of_nil | done].
  - rewrite not_elem_of_cons. destruct (String.eqb_spec k key) as [->|Hne].
    + split; [done | intros [? _]; done].
    + rewrite IH. split; [intros ?; split; [congruence | done] | tauto].
Qed.

Lemma dict_get_absent (d : dict) (key : string) (dflt : value) :
  key ∉ d.*1 → dict_get d key dflt = dflt.
Proof. intros H%dict_lookup_None. unfold dict_get. by rewrite H. Qed.

Lemma dict_get_present (d : dict) (key : string) (dflt v : value) :
  dict_lookup key d = Some v → dict_get d key dflt = v.
Proof. intros H. unfold dict_get. by rewrite H. Qed.

(** C5.  A response dictionary that has the key "id" always gives a
    ticket.  Its id is the value under "id"; each other attribute is the
    value under its key, and when the key is missing: the empty string for
    subject, description, created_at and updated_at, 0 for status, priority
    and requester_id (which the data model calls required), and None for
    responder_id. *)
Theorem from_dict_defaults (d : dict) (v : value) :
  dict_lookup "id" d = Some v →
  ∃ t, Ticket.from_dict (VDict d) = Ok t
    ∧ Ticket.id t = v
    ∧ Ticket.subject t = default (VStr "") (dict_lookup "subject" d)
    ∧ Ticket.description t = default (VStr "") (dict_lookup "description" d)
    ∧ Ticket.status t = default (VInt 0) (dict_lookup "status" d)
    ∧ Ticket.priority t = default (VInt 0) (dict_lookup "priority" d)
    ∧ Ticket.created_at t = default (VStr "") (dict_lookup "created_at" d)
    ∧ Ticket.updated_at t = default (VStr "") (dict_lookup "updated_at" d)
    ∧ Ticket.requester_id t = default (VInt 0) (dict_lookup "requester_id" d)
    ∧ Ticket.responder_id t = default VNone (dict_lookup "responder_id" d)
    ∧ ("subject" ∉ d.*1 → Ticket.subject t = VStr "")
    ∧ ("description" ∉ d.*1 → Ticket.description t = VStr "")
    ∧ ("created_at" ∉ d.*1 → Ticket.created_at t = VStr "")
    ∧ ("updated_at" ∉ d.*1 → Ticket.updated_at t = VStr "")
    ∧ ("status" ∉ d.*1 → Ticket.status t = VInt 0)
    ∧ ("priority" ∉ d.*1 → Ticket.priority t = VInt 0)
    ∧ ("requester_id" ∉ d.*1 → Ticket.requester_id t = VInt 0)
    ∧ ("responder_id" ∉ d.*1 → Ticket.responder_id t = VNone).
Proof.
  intros Hid. eexists. split.
  { unfold Ticket.from_dict, dict_item. rewrite Hid. reflexivity. }
  simpl. repeat split; auto using dict_get_absent.
Qed.

Lemma from_dict_defaults_witness :
  dict_lookup "id" [("id", VInt 7); ("status", VInt 3)] = Some (VInt 7)
  ∧ ∃ t, Ticket.from_dict (VDict [("id", VInt 7); ("status", VInt 3)]) = Ok t
       ∧ Ticket.status t = VInt 3
       ∧ Ticket.requester_id t = VInt 0
       ∧ Ticket.responder_id t = VNone.
Proof.
  split; [reflexivity|].
  destruct (from_dict_defaults [("id", VInt 7); ("status", VInt 3)] (VInt 7)
              eq_refl) as (t & Ht & H).
  exists t. split; [exact Ht|].
  destruct H as (_ & _ & _ & Hs & _ & _ & _ & Hr & Hp & _).
  auto.
Defined.

(** C10.  On a response dictionary, [from_dict] raises exactly when the key
    "id" is absent, and then it is the [KeyError] of that key: "id" is the
    only key read without a default.  A dictionary with "id" alone gives
    the ticket made of that id and the defaults. *)
Theorem from_dict_fails_iff_no_id (d : dict) :
  ((∃ e, Ticket.from_dict (VDict d) = Raise e) ↔ "id" ∉ d.*1)
  ∧ (∀ e, Ticket.from_dict (VDict d) = Raise e → e = KeyError "id")
  ∧ (∀ v, Ticket.from_dict (VDict [("id", v)]) =
          Ok {| Ticket.id := v; Ticket.subject := VStr "";
                Ticket.description := VStr ""; Ticket.status := VInt 0;
                Ticket.priority := VInt 0; Ticket.created_at := VStr "";
                Ticket.updated_at := VStr ""; Ticket.requester_id := VInt 0;
                Ticket.responder_id := VNone |}).
Proof.
  rewrite <- dict_lookup_None.
  unfold Ticket.from_dict, dict_item.
  destruct (dict_lookup "id" d) as [v|] eqn:Hid; simpl.
  - split; [|split].
    + split; [intros [e He]; discriminate | discriminate].
    + discriminate.
    + reflexivity.
  - split; [|split].
    + split; [done | eauto].
    + by intros e [= <-].
    + reflexivity.
Qed.

(** ** config.py *)

(** C8.  [load_from_env] leaves the environment as it was; the key it
    stores is the value of FRESHSERVICE_API_KEY ([None] when unset), the
    domain the value of FRESHSERVICE_DOMAIN, or "freshservice.com" when
    that is unset; and it returns true exactly when an API key is present,
    that is, when the variable holds a key that is not the empty text. *)
Theorem load_from_env_reads (st : Config.state) :
  let r := (Config.load_from_env st).1 in
  let st' := (Config.load_from_env st).2 in
  Config.environ st' = Config.environ st
  ∧ Config.api_key (Config.self st')
      = Config.environ st !! "FRESHSERVICE_API_KEY"
  ∧ Config.domain (Config.self st')
      = default "freshservice.com" (Config.environ st !! "FRESHSERVICE_DOMAIN")
  ∧ (Config.environ st !! "FRESHSERVICE_DOMAIN" = None →
       Config.domain (Config.self st') = "freshservice.com")
  ∧ (r = true ↔
       ∃ k, Config.environ st !! "FRESHSERVICE_API_KEY" = Some k ∧ k ≠ "")
  ∧ (Config.environ st !! "FRESHSERVICE_API_KEY" = None → r = false).
Proof.
  simpl. unfold Config.getenv, Config.getenv_default.
  repeat split; try (intros ->; done).
  - destruct (Config.environ st !! "FRESHSERVICE_API_KEY") as [k|]; simpl;
      [|discriminate].
    intros H. exists k. split; [done|].
    intros ->. discriminate.
  - intros (k & -> & Hk). simpl.
    destruct (String.eqb_spec k ""); [done | reflexivity].
Qed.

(** ** The table of [list] *)

Lemma length_replicate_char (n : nat) (c : ascii) :
  String.length (replicate_char n c) = n.
Proof. induction n; simpl; congruence. Qed.

Lemma string_app_cons (c : ascii) (s t : string) :
  String c s +:+ t = String c (s +:+ t).
Proof. reflexivity. Qed.

Lemma string_app_length (s t : string) :
  String.length (s +:+ t) = String.length s + String.length t.
Proof.
  induction s as [|c s IH]; [done|].
  rewrite string_app_cons. simpl. by rewrite IH.
Qed.

Lemma length_substring_0 (n : nat) (s : string) :
  n ≤ String.length s → String.length (String.substring 0 n s) = n.
Proof.
  revert s. induction n as [|n IH]; intros [|c s]; simpl; try lia; try done.
  intros H. rewrite IH; [done | lia].
Qed.

Lemma string_app_empty (s : string) : s +:+ "" = s.
Proof.
  induction s as [|c s IH]; [done|]. by rewrite string_app_cons, IH.
Qed.

Lemma ljust_full (w : nat) (s : string) :
  w ≤ String.length s → ljust w s = s.
Proof.
  intros H. unfold ljust. replace (w - String.length s) with 0 by lia.
  apply string_app_empty.
Qed.

(** The text [list] puts in the subject column for a subject [s]. *)
Lemma subject_column_width (s : string) :
  String.length
    (ljust 40 (if (40 <? String.length s)%nat
               then str_prefix 37 s +:+ "..." else s)) = 40.
Proof.
  unfold ljust. rewrite string_app_length, length_replicate_char.
  destruct (Nat.ltb_spec 40 (String.length s)) as [H|H]; [|lia].
  unfold str_prefix. rewrite string_app_length, length_substring_0 by lia.
  simpl. lia.
Qed.

(** ** Filtering and truncation in [list_tickets] *)

Lemma Forall_list_filter {A} (f : A → bool) (l : list A) :
  Forall (λ x, f x = true) (List.filter f l).
Proof.
  induction l as [|x l IH]; simpl; [constructor|].
  destruct (f x) eqn:Hx; [constructor|]; done.
Qed.

Lemma Forall_list_filter_keep {A} (P : A → Prop) (f : A → bool) (l : list A) :
  Forall P l → Forall P (List.filter f l).
Proof.
  induction 1 as [|x l Hx Hl IH]; simpl; [constructor|].
  destruct (f x); [constructor|]; done.
Qed.

Lemma sublist_list_filter {A} (f : A → bool) (l : list A) :
  List.filter f l `sublist_of` l.
Proof.
  induction l as [|x l IH]; simpl; [constructor|].
  destruct (f x); by constructor.
Qed.

Lemma Forall_slice_to {A} (P : A → Prop) (stop : Z) (l : list A) :
  Forall P l → Forall P (slice_to stop l).
Proof. intros H. unfold slice_to. destruct (0 <=? stop)%Z; by apply Forall_take. Qed.

Lemma slice_to_nonneg {A} (stop : Z) (l : list A) :
  (0 ≤ stop)%Z → slice_to stop l = take (Z.to_nat stop) l.
Proof. intros H. unfold slice_to. by destruct (Z.leb_spec 0 stop); [|lia]. Qed.

Lemma apply_filters_sublist (filters : option dict) (tickets : list Ticket.t) :
  FreshserviceClient.apply_filters filters tickets `sublist_of` tickets.
Proof.
  unfold FreshserviceClient.apply_filters.
  destruct filters as [f|]; [|done]. destruct (truthy (VDict f)); [|done].
  destruct (dict_lookup "status" f), (dict_lookup "priority" f);
    repeat (etrans; [apply sublist_list_filter|]); done.
Qed.

Lemma apply_filters_status (f : dict) (v : value) (tickets : list Ticket.t) :
  dict_lookup "status" f = Some v →
  Forall (λ t, py_eq (Ticket.status t) v = true)
    (FreshserviceClient.apply_filters (Some f) tickets).
Proof.
  intros Hv. unfold FreshserviceClient.apply_filters.
  destruct f as [|kv f]; [discriminate|]. simpl truthy. cbv iota.
  rewrite Hv.
  destruct (dict_lookup "priority" (kv :: f));
    [apply Forall_list_filter_keep|]; apply Forall_list_filter.
Qed.

Lemma apply_filters_priority (f : dict) (v : value) (tickets : list Ticket.t) :
  dict_lookup "priority" f = Some v →
  Forall (λ t, py_eq (Ticket.priority t) v = true)
    (FreshserviceClient.apply_filters (Some f) tickets).
Proof.
  intros Hv. unfold FreshserviceClient.apply_filters.
  destruct f as [|kv f]; [discriminate|]. simpl truthy. cbv iota.
  rewrite Hv. apply Forall_list_filter.
Qed.

(** What [x == n] says of [x], for an integer [n]. *)
Lemma py_eq_int_cases (x : value) (n : Z) :
  py_eq x (VInt n) = true ↔
  x = VInt n
  ∨ (∃ b, x = VBool b ∧ Z.b2z b = n)
  ∨ (∃ f, x = VFloat f ∧ PyFloat.to_int f = Some n).
Proof.
  split.
  - destruct x as [|b|m|f|s|l|d]; try discriminate.
    + change (py_eq (VBool b) (VInt n)) with (Z.b2z b =? n)%Z.
      intros ?%Z.eqb_eq. right. left. eauto.
    + change (py_eq (VInt m) (VInt n)) with (m =? n)%Z.
      intros ->%Z.eqb_eq. by left.
    + change (py_eq (VFloat f) (VInt n)) with (float_eq_int f n).
      unfold float_eq_int.
      destruct (PyFloat.to_int f) as [k|] eqn:Hk; [|done].
      intros ->%Z.eqb_eq. right. right. eauto.
  - intros [->|[(b & -> & <-)|(f & -> & Hf)]].
    + change (py_eq (VInt n) (VInt n)) with (n =? n)%Z. apply Z.eqb_refl.
    + change (py_eq (VBool b) (VInt (Z.b2z b))) with (Z.b2z b =? Z.b2z b)%Z.
      apply Z.eqb_refl.
    + change (py_eq (VFloat f) (VInt n)) with (float_eq_int f n).
      unfold float_eq_int. rewrite Hf. apply Z.eqb_refl.
Qed.

(** The filters [list] builds for a status name of the choice. *)
Lemma list_filters_status (name : string) (code : Z) (priority : option Z)
    (filters : dict) :
  (name, code) ∈ [("open", 2); ("pending", 3); ("resolved", 4); ("closed", 5)]%Z →
  Main.list_filters (Some name) priority = Ok filters →
  dict_lookup "status" filters = Some (VInt code).
Proof.
  intros Hin Hf.
  repeat (apply elem_of_cons in Hin as [[= -> ->]|Hin]);
    [..|by apply elem_of_nil in Hin];
    unfold Main.list_filters in Hf; simpl in Hf;
    destruct priority as [p|]; try destruct (p =? 0)%Z;
    simpl in Hf; injection Hf as <-; reflexivity.
Qed.

(** What [list_tickets] returns, when it returns, in terms of the reply. *)
Lemma list_tickets_returned (self : FreshserviceClient.t)
    (filters : option dict) (limit : Z) (w w' : world)
    (tickets : list Ticket.t) :
  run (FreshserviceClient.list_tickets self filters limit) w = (Ok tickets, w') →
  ∃ code data all,
    server w (Wire.list_request self) = Response code (Some data)
    ∧ Wire.success code = true
    ∧ FreshserviceClient.parse_tickets data = Ok all
    ∧ tickets = slice_to limit (FreshserviceClient.apply_filters filters all).
Proof.
  rewrite run_list_tickets. intros [= H _]. revert H.
  unfold Wire.outcome, Wire.decoded.
  destruct (server w _) as [|code [data|]]; try discriminate;
    destruct (Wire.success code) eqn:Hc; try discriminate.
  destruct (FreshserviceClient.parse_tickets data) as [all|] eqn:Hall;
    simpl; [|discriminate].
  intros [= <-]. by exists code, data, all.
Qed.

(** For a limit [N >= 0]: when the server answers with a success status
    and a body whose tickets parse to [all] (in the order of the body),
    [list_tickets] returns the first [N] elements of [all] filtered, so at
    most [N] tickets, in the order of the server. *)
Lemma list_tickets_limit (self : FreshserviceClient.t)
    (filters : option dict) (limit : Z) (w : world) (code : Z) (data : value)
    (all : list Ticket.t) :
  (0 ≤ limit)%Z →
  server w (Wire.list_request self) = Response code (Some data) →
  Wire.success code = true →
  FreshserviceClient.parse_tickets data = Ok all →
  let filtered := FreshserviceClient.apply_filters filters all in
  let tickets := take (Z.to_nat limit) filtered in
  run (FreshserviceClient.list_tickets self filters limit) w
    = (Ok tickets, sending (Wire.list_request self) w)
  ∧ (Z.of_nat (length tickets) ≤ limit)%Z
  ∧ tickets `prefix_of` filtered
  ∧ filtered `sublist_of` all.
Proof.
  intros Hlimit Hreply Hcode Hall filtered tickets.
  split; [|split; [|split]].
  - rewrite run_list_tickets, Hreply. unfold Wire.outcome, Wire.decoded.
    rewrite Hcode, Hall. simpl. by rewrite slice_to_nonneg.
  - unfold tickets. rewrite length_take. lia.
  - apply prefix_take.
  - apply apply_filters_sublist.
Qed.

(** Three tickets of statuses 2, 5, 5, the filter on status 5 and the
    limit 1: exactly one ticket, the first closed one. *)
Lemma list_tickets_limit_example :
  (0 ≤ 1)%Z
  ∧ Main.list_filters (Some "closed") None = Ok [("status", VInt 5)]
  ∧ run (FreshserviceClient.list_tickets Sample.client
           (Some [("status", VInt 5)]) 1)
        (Sample.answering 200 (Some Sample.three_tickets))
    = (Ok [Sample.ticket 2 5 "VPN drops every hour"],
       sending (Wire.list_request Sample.client)
         (Sample.answering 200 (Some Sample.three_tickets))).
Proof.
  split; [lia|]. split; [reflexivity|].
  exact (proj1 (list_tickets_limit Sample.client (Some [("status", VInt 5)]) 1
                  (Sample.answering 200 (Some Sample.three_tickets)) 200
                  Sample.three_tickets
                  [Sample.ticket 1 2 "Printer offline";
                   Sample.ticket 2 5 "VPN drops every hour";
                   Sample.ticket 3 5 "New laptop"]
                  ltac:(lia) eq_refl eq_refl eq_refl)).
Defined.

(** ** The commands *)

Lemma printing_printing (l1 l2 : list string) (w : world) :
  printing l2 (printing l1 w) = printing (l1 ++ l2) w.
Proof. unfold printing. simpl. by rewrite app_assoc. Qed.

Lemma run_echo (message : string) (w : world) :
  run (Click.echo message) w = (Ok tt, printing [message] w).
Proof. reflexivity. Qed.

Lemma run_echo_value (v : value) (w : world) :
  run (Click.echo_value v) w = (Ok tt, printing [Click.echo_text v] w).
Proof. reflexivity. Qed.

Lemma int_table_get_hashable {A} (table : list (Z * A)) (v : value) (dflt : A) :
  hashable v = true → ∃ a, int_table_get table v dflt = Ok a.
Proof. destruct v; simpl; try discriminate; eauto. Qed.

Lemma run_view_ok (exc_str : exn → string) (o : Main.obj) (ticket_id : Z)
    (w w1 : world) (t : Ticket.t) (st pr : value) :
  run (FreshserviceClient.get_ticket (Main.client o) ticket_id) w = (Ok t, w1) →
  int_table_get
    [(2, VStr "Open"); (3, VStr "Pending"); (4, VStr "Resolved");
     (5, VStr "Closed")]%Z (Ticket.status t) (Ticket.status t) = Ok st →
  int_table_get
    [(1, VStr "Low"); (2, VStr "Medium"); (3, VStr "High");
     (4, VStr "Urgent")]%Z (Ticket.priority t) (Ticket.priority t) = Ok pr →
  run (Main.view exc_str o ticket_id) w
  = (Ok tt, printing (Wire.view_lines t st pr) w1).
Proof.
  intros Hget Hst Hpr. unfold Main.view.
  rewrite run_bind. unfold try_except. cbn [run]. rewrite Hget.
  repeat (rewrite run_bind;
          first [rewrite run_echo | rewrite run_echo_value
                | unfold lift; cbn [run]; first [rewrite Hst | rewrite Hpr]]).
  rewrite run_echo. rewrite !printing_printing. reflexivity.
Qed.

Lemma run_view_error (exc_str : exn → string) (o : Main.obj) (ticket_id : Z)
    (w w1 : world) (e : exn) :
  run (FreshserviceClient.get_ticket (Main.client o) ticket_id) w
    = (Raise e, w1) →
  run (Main.view exc_str o ticket_id) w
  = (Raise (ClickException ("Failed to retrieve ticket: " +:+ exc_str e)), w1).
Proof.
  intros Hget. unfold Main.view.
  rewrite run_bind. unfold try_except. cbn [run]. by rewrite Hget.
Qed.

Lemma run_status (exc_str : exn → string) (o : Main.obj) (ticket_id : Z)
    (name : string) (code : Z) (w : world) :
  str_table_item
    [("open", 2); ("pending", 3); ("resolved", 4); ("closed", 5)]%Z name
    = Ok code →
  run (Main.status exc_str o ticket_id name) w =
  match Wire.outcome (λ _, Ok tt)
          (server w (Wire.put_request (Main.client o) ticket_id code)) with
  | Ok _ =>
      (Ok tt,
       printing ["Ticket #" +:+ pretty ticket_id +:+ " status updated to "
                 +:+ name +:+ "."]
         (sending (Wire.put_request (Main.client o) ticket_id code) w))
  | Raise e =>
      (Raise (ClickException
                ("Failed to update ticket status: " +:+ exc_str e)),
       sending (Wire.put_request (Main.client o) ticket_id code) w)
  end.
Proof.
  intros Hcode. unfold Main.status, try_except. cbn [run].
  rewrite run_bind. unfold lift at 1. cbn [run]. rewrite Hcode.
  rewrite run_bind, run_update_ticket_status.
  destruct (Wire.outcome _ _) as [[]|e]; reflexivity.
Qed.

Lemma status_code_of_name (name : string) (code : Z) :
  (name, code) ∈ [("open", 2); ("pending", 3); ("resolved", 4); ("closed", 5)]%Z →
  str_table_item
    [("open", 2); ("pending", 3); ("resolved", 4); ("closed", 5)]%Z name
    = Ok code.
Proof.
  intros Hin.
  repeat (apply elem_of_cons in Hin as [[= -> ->]|Hin]); try reflexivity.
  by apply elem_of_nil in Hin.
Qed.

(** C6, as stated, fails when the responder id is the integer 0: the
    Assignee line reads "Unassigned", not 0. *)
Lemma view_assignee_zero_counterexample :
  run (FreshserviceClient.get_ticket Sample.client 7)
      (Sample.answering 200 (Some (Sample.one_ticket (VInt 0))))
  = (Ok (Sample.assigned (VInt 0)),
     sending (Wire.get_request Sample.client 7)
       (Sample.answering 200 (Some (Sample.one_ticket (VInt 0)))))
  ∧ last (stdout (run (Main.view Sample.exc_str Sample.ctx 7)
                    (Sample.answering 200
                       (Some (Sample.one_ticket (VInt 0))))).2)
    = Some "  Assignee:  Unassigned"
  ∧ ¬ (∀ exc_str o ticket_id w w1 t n,
         run (FreshserviceClient.get_ticket (Main.client o) ticket_id) w
           = (Ok t, w1) →
         Ticket.responder_id t = VInt n →
         last (stdout (run (Main.view exc_str o ticket_id) w).2)
         = Some ("  Assignee:  " +:+ pretty n)).
Proof.
  split; [reflexivity|]. split; [reflexivity|].
  intros H.
  specialize (H Sample.exc_str Sample.ctx 7%Z
                (Sample.answering 200 (Some (Sample.one_ticket (VInt 0))))
                _ _ 0%Z eq_refl eq_refl).
  vm_compute in H. discriminate H.
Qed.

(** C6, amended.  When [view] has its ticket and the display tables accept
    the status and the priority, it prints its lines, and the last one, the
    Assignee line, reads "Unassigned" when the responder id is absent
    ([None]) and shows the integer when the responder id is an integer
    other than 0. *)
Theorem view_assignee (exc_str : exn → string) (o : Main.obj)
    (ticket_id : Z) (w w1 : world) (t : Ticket.t) :
  run (FreshserviceClient.get_ticket (Main.client o) ticket_id) w = (Ok t, w1) →
  hashable (Ticket.status t) = true →
  hashable (Ticket.priority t) = true →
  ∃ lines,
    run (Main.view exc_str o ticket_id) w = (Ok tt, printing lines w1)
    ∧ (Ticket.responder_id t = VNone →
         last lines = Some "  Assignee:  Unassigned")
    ∧ (∀ n, Ticket.responder_id t = VInt n → n ≠ 0%Z →
         last lines = Some ("  Assignee:  " +:+ pretty n)).
Proof.
  intros Hget Hst Hpr.
  destruct (int_table_get_hashable
              [(2, VStr "Open"); (3, VStr "Pending"); (4, VStr "Resolved");
               (5, VStr "Closed")]%Z _ (Ticket.status t) Hst) as [st Est].
  destruct (int_table_get_hashable
              [(1, VStr "Low"); (2, VStr "Medium"); (3, VStr "High");
               (4, VStr "Urgent")]%Z _ (Ticket.priority t) Hpr) as [pr Epr].
  exists (Wire.view_lines t st pr). split; [|split].
  - by apply run_view_ok.
  - intros Hr. unfold Wire.view_lines. rewrite Hr. reflexivity.
  - intros n Hr Hn. unfold Wire.view_lines. rewrite Hr. simpl.
    destruct (Z.eqb_spec n 0); [done | reflexivity].
Qed.

Lemma view_assignee_witness :
  hashable (Ticket.status (Sample.assigned (VInt 42))) = true
  ∧ hashable (Ticket.priority (Sample.assigned (VInt 42))) = true
  ∧ ∃ lines,
      run (Main.view Sample.exc_str Sample.ctx 7)
          (Sample.answering 200 (Some (Sample.one_ticket (VInt 42))))
      = (Ok tt,
         printing lines
           (sending (Wire.get_request Sample.client 7)
              (Sample.answering 200 (Some (Sample.one_ticket (VInt 42))))))
      ∧ last lines = Some "  Assignee:  42".
Proof.
  split; [reflexivity|]. split; [reflexivity|].
  destruct (view_assignee Sample.exc_str Sample.ctx 7
              (Sample.answering 200 (Some (Sample.one_ticket (VInt 42))))
              _ (Sample.assigned (VInt 42)) eq_refl eq_refl eq_refl)
    as (lines & Hrun & _ & Hint).
  exists lines. split; [exact Hrun|].
  apply (Hint 42%Z); [reflexivity | lia].
Defined.

(** C9.  When the responder id is falsy, and the integer 0 is, as [None]
    is, the Assignee line of [view] reads "Unassigned"; for the responder
    id 0 the line does not show the 0. *)
Theorem view_assignee_falsy (exc_str : exn → string) (o : Main.obj)
    (ticket_id : Z) (w w1 : world) (t : Ticket.t) :
  run (FreshserviceClient.get_ticket (Main.client o) ticket_id) w = (Ok t, w1) →
  hashable (Ticket.status t) = true →
  hashable (Ticket.priority t) = true →
  truthy (Ticket.responder_id t) = false →
  truthy (VInt 0) = false
  ∧ truthy VNone = false
  ∧ ∃ lines,
      run (Main.view exc_str o ticket_id) w = (Ok tt, printing lines w1)
      ∧ last lines = Some "  Assignee:  Unassigned"
      ∧ (Ticket.responder_id t = VInt 0 →
           last lines ≠ Some ("  Assignee:  " +:+ pretty 0%Z)).
Proof.
  intros Hget Hst Hpr Hfalsy. split; [reflexivity|]. split; [reflexivity|].
  destruct (int_table_get_hashable
              [(2, VStr "Open"); (3, VStr "Pending"); (4, VStr "Resolved");
               (5, VStr "Closed")]%Z _ (Ticket.status t) Hst) as [st Est].
  destruct (int_table_get_hashable
              [(1, VStr "Low"); (2, VStr "Medium"); (3, VStr "High");
               (4, VStr "Urgent")]%Z _ (Ticket.priority t) Hpr) as [pr Epr].
  exists (Wire.view_lines t st pr).
  assert (Hlast : last (Wire.view_lines t st pr)
                  = Some "  Assignee:  Unassigned").
  { unfold Wire.view_lines. rewrite Hfalsy. reflexivity. }
  split; [by apply run_view_ok|]. split; [exact Hlast|].
  intros _. rewrite Hlast. discriminate.
Qed.

Lemma view_assignee_falsy_witness :
  truthy (Ticket.responder_id (Sample.assigned (VInt 0))) = false
  ∧ ∃ lines,
      run (Main.view Sample.exc_str Sample.ctx 7)
          (Sample.answering 200 (Some (Sample.one_ticket (VInt 0))))
      = (Ok tt,
         printing lines
           (sending (Wire.get_request Sample.client 7)
              (Sample.answering 200 (Some (Sample.one_ticket (VInt 0))))))
      ∧ last lines = Some "  Assignee:  Unassigned".
Proof.
  split; [reflexivity|].
  destruct (view_assignee_falsy Sample.exc_str Sample.ctx 7
              (Sample.answering 200 (Some (Sample.one_ticket (VInt 0))))
              _ (Sample.assigned (VInt 0)) eq_refl eq_refl eq_refl eq_refl)
    as (_ & _ & lines & Hrun & Hlast & _).
  exists lines. split; [exact Hrun | exact Hlast].
Defined.

(** C7.  For a status name of the choice and its code (open 2, pending 3,
    resolved 4, closed 5), [status] sends exactly one request, whatever the
    answer: a PUT to the ticket's URL with the JSON body
    [{"status": code}].  When the answer has a success status,
    [update_ticket_status] returns nothing (the unit value) and the command
    ends normally, having printed the confirmation line. *)
Theorem status_puts_once (exc_str : exn → string) (o : Main.obj)
    (ticket_id : Z) (name : string) (code : Z) (w : world) :
  (name, code) ∈ [("open", 2); ("pending", 3); ("resolved", 4); ("closed", 5)]%Z →
  let rq := Wire.put_request (Main.client o) ticket_id code in
  sent (run (Main.status exc_str o ticket_id name) w).2 = sent w ++ [rq]
  ∧ method rq = PUT
  ∧ url rq = FreshserviceClient.base_url (Main.client o) +:+ "/tickets/"
             +:+ pretty ticket_id
  ∧ json rq = Some (VDict [("status", VInt code)])
  ∧ (∀ c body, server w rq = Response c body → Wire.success c = true →
       run (FreshserviceClient.update_ticket_status (Main.client o)
              ticket_id code) w
       = (Ok tt, sending rq w)
       ∧ run (Main.status exc_str o ticket_id name) w
         = (Ok tt,
            printing ["Ticket #" +:+ pretty ticket_id
                      +:+ " status updated to " +:+ name +:+ "."]
              (sending rq w))).
Proof.
  intros Hin rq.
  pose proof (run_status exc_str o ticket_id name code w
                (status_code_of_name _ _ Hin)) as Hrun.
  fold rq in Hrun.
  split; [|split; [|split; [|split]]]; try reflexivity.
  - rewrite Hrun. by destruct (Wire.outcome _ _).
  - intros c body Hreply Hc. split.
    + rewrite run_update_ticket_status. fold rq.
      rewrite Hreply. unfold Wire.outcome. by rewrite Hc.
    + rewrite Hrun, Hreply. unfold Wire.outcome. by rewrite Hc.
Qed.

Lemma status_puts_once_witness :
  ("closed", 5%Z) ∈ [("open", 2); ("pending", 3); ("resolved", 4); ("closed", 5)]%Z
  ∧ run (Main.status Sample.exc_str Sample.ctx 7 "closed")
        (Sample.answering 200 None)
    = (Ok tt,
       {| server := server (Sample.answering 200 None);
          sent := [ {| method := PUT;
                       url := "https://acme.freshservice.com/api/v2/tickets/7";
                       auth := ("secret", "X");
                       headers := [("Content-Type", "application/json")];
                       json := Some (VDict [("status", VInt 5)]) |} ];
          stdout := ["Ticket #7 status updated to closed."] |}).
Proof.
  assert (Hin : ("closed", 5%Z) ∈
            [("open", 2); ("pending", 3); ("resolved", 4); ("closed", 5)]%Z)
    by (do 3 apply list_elem_of_further; apply list_elem_of_here).
  split; [exact Hin|].
  destruct (status_puts_once Sample.exc_str Sample.ctx 7 "closed" 5
              (Sample.answering 200 None) Hin) as (_ & _ & _ & _ & H).
  exact (proj2 (H 200%Z None eq_refl eq_refl)).
Defined.

(** ** Failures of the server *)

(** [view] and [status] catch what the client raises: a status outside
    200..299 ends them with the one line that click prints for a
    [ClickException], the text of the failure in it, and exit code 1. *)
Lemma view_http_error (exc_str : exn → string) (o : Main.obj)
    (ticket_id : Z) (w : world) (code : Z) (body : option value) :
  server w (Wire.get_request (Main.client o) ticket_id) = Response code body →
  Wire.success code = false →
  Click.finish (run (Main.view exc_str o ticket_id) w).1
  = {| Click.code := 1;
       Click.stderr :=
         Click.ErrorLine ("Failed to retrieve ticket: "
                          +:+ exc_str (HTTPStatusError code)) |}.
Proof.
  intros Hreply Hcode.
  erewrite run_view_error; [reflexivity|].
  rewrite run_get_ticket, Hreply. unfold Wire.outcome. by rewrite Hcode.
Qed.

Lemma status_http_error (exc_str : exn → string) (o : Main.obj)
    (ticket_id : Z) (name : string) (status : Z) (w : world) (code : Z)
    (body : option value) :
  (name, status) ∈ [("open", 2); ("pending", 3); ("resolved", 4);
                    ("closed", 5)]%Z →
  server w (Wire.put_request (Main.client o) ticket_id status)
    = Response code body →
  Wire.success code = false →
  Click.finish (run (Main.status exc_str o ticket_id name) w).1
  = {| Click.code := 1;
       Click.stderr :=
         Click.ErrorLine ("Failed to update ticket status: "
                          +:+ exc_str (HTTPStatusError code)) |}.
Proof.
  intros Hin Hreply Hcode.
  rewrite (run_status _ _ _ _ _ _ (status_code_of_name _ _ Hin)), Hreply.
  unfold Wire.outcome. by rewrite Hcode.
Qed.

(** C1 does not hold of [list].  The call of [list_tickets] stands outside
    any [try]: when the server answers GET /tickets with a status outside
    200..299, the [HTTPStatusError] leaves the command as it is.  The
    process still ends with a non-zero exit code, 1, but what goes to
    standard error is the interpreter's traceback and not the one line of a
    [ClickException]; nothing was caught at the command layer. *)
Theorem list_http_error_uncaught (o : Main.obj) (status : option string)
    (priority : option Z) (limit : Z) (w : world) (filters : dict)
    (code : Z) (body : option value) :
  Main.list_filters status priority = Ok filters →
  server w (Wire.list_request (Main.client o)) = Response code body →
  Wire.success code = false →
  run (Main.list o status priority limit) w
  = (Raise (HTTPStatusError code),
     sending (Wire.list_request (Main.client o)) w)
  ∧ Click.finish (run (Main.list o status priority limit) w).1
    = {| Click.code := 1;
         Click.stderr := Click.Traceback (HTTPStatusError code) |}
  ∧ ∀ message,
      Click.stderr (Click.finish (run (Main.list o status priority limit) w).1)
      ≠ Click.ErrorLine message.
Proof.
  intros Hf Hreply Hcode.
  assert (Hrun : run (Main.list o status priority limit) w
                 = (Raise (HTTPStatusError code),
                    sending (Wire.list_request (Main.client o)) w)).
  { unfold Main.list. rewrite run_bind. unfold lift at 1. cbn [run].
    rewrite Hf, run_bind, run_list_tickets, Hreply.
    unfold Wire.outcome. by rewrite Hcode. }
  rewrite Hrun. split; [reflexivity|]. split; [reflexivity|].
  intros message. discriminate.
Qed.

(** The whole process on [list] against a server that answers 500. *)
Lemma list_http_error_uncaught_witness :
  Main.list_filters None None = Ok []
  ∧ Wire.success 500 = false
  ∧ run (Main.list Sample.ctx None None 20) (Sample.answering 500 None)
    = (Raise (HTTPStatusError 500),
       sending (Wire.list_request Sample.client) (Sample.answering 500 None))
  ∧ Main.process Sample.exc_str ∅ (Sample.argv (Main.List None None 20))
      (Sample.answering 500 None)
    = ([], {| Click.code := 1;
              Click.stderr := Click.Traceback (HTTPStatusError 500) |}).
Proof.
  split; [reflexivity|]. split; [reflexivity|].
  split; [|reflexivity].
  exact (proj1 (list_http_error_uncaught Sample.ctx None None 20
                  (Sample.answering 500 None) [] 500 None
                  eq_refl eq_refl eq_refl)).
Defined.

(** ** The table [list] prints *)

Lemma printing_nil (w : world) : printing [] w = w.
Proof. destruct w. unfold printing. simpl. by rewrite app_nil_r. Qed.

Lemma run_list_loop (tickets : list Ticket.t) (rows : list string) (w : world) :
  mapM Main.list_row tickets = Ok rows →
  run (for_each tickets (λ ticket,
         row ← lift (Main.list_row ticket); Click.echo row)) w
  = (Ok tt, printing rows w).
Proof.
  revert rows w. induction tickets as [|t tickets IH]; intros rows w.
  - intros [= <-]. simpl. by rewrite printing_nil.
  - cbn [mapM]. intros H.
    destruct (Main.list_row t) as [row|] eqn:Hrow; [|discriminate].
    cbn in H.
    destruct (mapM Main.list_row tickets) as [rows'|] eqn:Hrows;
      [|discriminate].
    injection H as <-.
    cbn [for_each]. rewrite !run_bind. unfold lift at 1. cbn [run].
    rewrite Hrow, run_echo, (IH rows' _ eq_refl), printing_printing.
    reflexivity.
Qed.

(** When [list_tickets] gives tickets and each has a row, [list] prints
    the heading, the rule and the rows, one per ticket and in order; with
    no ticket it prints the one line "No tickets found.". *)
Lemma run_list_ok (o : Main.obj) (status : option string)
    (priority : option Z) (limit : Z) (w w1 : world) (filters : dict)
    (tickets : list Ticket.t) (rows : list string) :
  Main.list_filters status priority = Ok filters →
  run (FreshserviceClient.list_tickets (Main.client o) (Some filters) limit) w
    = (Ok tickets, w1) →
  mapM Main.list_row tickets = Ok rows →
  run (Main.list o status priority limit) w
  = (Ok tt,
     printing
       (if bool_decide (tickets = []) then ["No tickets found."]
        else "ID         Subject                                    Status       Priority   "
             :: replicate_char 72 "-" :: rows)
       w1).
Proof.
  intros Hf Hget Hrows. unfold Main.list.
  rewrite run_bind. unfold lift at 1. cbn [run]. rewrite Hf.
  rewrite run_bind, Hget.
  destruct (bool_decide (tickets = [])); [reflexivity|].
  rewrite run_bind, run_echo, run_bind, run_echo, (run_list_loop _ _ _ Hrows).
  by rewrite !printing_printing.
Qed.

(** A ticket whose subject is a string, whose id can be formatted and
    whose status and priority the display tables accept has a row. *)
Lemma list_row_returns (ticket : Ticket.t) (s id_column : string) :
  Ticket.subject ticket = VStr s →
  format_left 10 (Ticket.id ticket) = Ok id_column →
  hashable (Ticket.status ticket) = true →
  hashable (Ticket.priority ticket) = true →
  ∃ rest,
    Main.list_row ticket
    = Ok (id_column +:+ " "
          +:+ ljust 40 (if (40 <? String.length s)%nat
                        then str_prefix 37 s +:+ "..." else s)
          +:+ " " +:+ rest).
Proof.
  intros Hs Hid Hst Hpr. unfold Main.list_row.
  destruct (int_table_get_hashable
              [(2, "Open"); (3, "Pending"); (4, "Resolved"); (5, "Closed")]%Z
              _ (str (Ticket.status ticket)) Hst) as [sd ->].
  destruct (int_table_get_hashable
              [(1, "Low"); (2, "Medium"); (3, "High"); (4, "Urgent")]%Z
              _ (str (Ticket.priority ticket)) Hpr) as [pd ->].
  rewrite Hs, Hid. simpl.
  destruct (40 <? String.length s)%nat; simpl; eauto.
Qed.

Lemma list_row_inv (ticket : Ticket.t) (row : string) :
  Main.list_row ticket = Ok row →
  ∃ s c1 sd pd,
    Ticket.subject ticket = VStr s
    ∧ format_left 10 (Ticket.id ticket) = Ok c1
    ∧ int_table_get
        [(2, "Open"); (3, "Pending"); (4, "Resolved"); (5, "Closed")]%Z
        (Ticket.status ticket) (str (Ticket.status ticket)) = Ok sd
    ∧ int_table_get
        [(1, "Low"); (2, "Medium"); (3, "High"); (4, "Urgent")]%Z
        (Ticket.priority ticket) (str (Ticket.priority ticket)) = Ok pd
    ∧ row = c1 +:+ " "
            +:+ ljust 40 (if (40 <? String.length s)%nat
                          then str_prefix 37 s +:+ "..." else s)
            +:+ " " +:+ ljust 12 sd +:+ " " +:+ ljust 10 pd.
Proof.
  unfold Main.list_row. intros H.
  destruct (int_table_get _ (Ticket.status ticket) _) as [sd|] eqn:Hsd;
    [|discriminate]. simpl in H.
  destruct (int_table_get _ (Ticket.priority ticket) _) as [pd|] eqn:Hpd;
    [|discriminate]. simpl in H.
  destruct (Ticket.subject ticket) as [| | | |s|l|d] eqn:Hsub; simpl in H;
    try discriminate.
  - destruct (format_left 10 (Ticket.id ticket)) as [c1|] eqn:Hc1;
      destruct (40 <? String.length s)%nat eqn:Hlen;
      simpl in H; try discriminate;
      injection H as <-; exists s, c1, sd, pd; rewrite Hlen; done.
  - destruct (40 <? length l)%nat; simpl in H; [discriminate|].
    destruct (format_left 10 (Ticket.id ticket)); discriminate.
  - destruct (40 <? length d)%nat; simpl in H; [discriminate|].
    destruct (format_left 10 (Ticket.id ticket)); discriminate.
Qed.

Lemma length_ljust (w : nat) (s : string) :
  String.length (ljust w s) = Nat.max w (String.length s).
Proof.
  unfold ljust. rewrite string_app_length, length_replicate_char. lia.
Qed.

Lemma format_left_length (w : nat) (v : value) (c : string) :
  format_left w v = Ok c → (w ≤ String.length c)%nat.
Proof.
  destruct v; simpl; try discriminate; intros [= <-];
    rewrite length_ljust; lia.
Qed.

Lemma list_row_showable (t : Ticket.t) :
  Wire.showable t = true ↔ ∃ row, Main.list_row t = Ok row.
Proof.
  split.
  - unfold Wire.showable. intros H.
    apply andb_prop in H as [H Hpr]. apply andb_prop in H as [H Hst].
    apply andb_prop in H as [Hs Hid].
    destruct (Ticket.subject t) as [| | | |s| |] eqn:Es; try discriminate.
    assert (∃ c1, format_left 10 (Ticket.id t) = Ok c1) as [c1 Hc1].
    { destruct (Ticket.id t); try discriminate; simpl; eauto. }
    destruct (list_row_returns t s c1 Es Hc1 Hst Hpr) as [rest Hrow]. eauto.
  - intros [row (s & c1 & sd & pd & Hs & Hc1 & Hsd & Hpd & _)%list_row_inv].
    unfold Wire.showable. rewrite Hs.
    destruct (Ticket.id t); try discriminate;
      destruct (Ticket.status t); try discriminate;
      destruct (Ticket.priority t); try discriminate; reflexivity.
Qed.

Lemma mapM_list_row (tickets : list Ticket.t) :
  Forall (λ t, Wire.showable t = true) tickets →
  ∃ rows, mapM Main.list_row tickets = Ok rows
    ∧ Forall2 (λ t row, Main.list_row t = Ok row) tickets rows.
Proof.
  induction 1 as [|t tickets Ht _ (rows & Hrows & Hall)].
  - exists []. split; [done | constructor].
  - apply list_row_showable in Ht as [row Hrow].
    exists (row :: rows). split; [|by constructor].
    cbn [mapM]. rewrite Hrow. cbn. rewrite Hrows. reflexivity.
Qed.

(** ** What [list] prints, in every case *)

Lemma run_list_loop_cases (tickets : list Ticket.t) (w : world) :
  ∃ rows,
    Forall2 (λ t row, Main.list_row t = Ok row)
      (take (length rows) tickets) rows
    ∧ ((length rows = length tickets
        ∧ run (for_each tickets (λ ticket,
                 row ← lift (Main.list_row ticket); Click.echo row)) w
          = (Ok tt, printing rows w))
       ∨ (∃ t e, tickets !! length rows = Some t
            ∧ Main.list_row t = Raise e
            ∧ run (for_each tickets (λ ticket,
                     row ← lift (Main.list_row ticket); Click.echo row)) w
              = (Raise e, printing rows w))).
Proof.
  revert w. induction tickets as [|t tickets IH]; intros w.
  - exists []. split; [constructor|]. left. split; [done|].
    simpl. by rewrite printing_nil.
  - destruct (Main.list_row t) as [row|e] eqn:Hrow.
    + destruct (IH (printing [row] w)) as (rows & Hall & Hrun).
      exists (row :: rows). split; [by constructor|].
      cbn [for_each]. rewrite !run_bind. unfold lift at 1 3. cbn [run].
      rewrite Hrow, run_echo.
      destruct Hrun as [(Hlen & ->)|(t' & e & Ht' & He & ->)].
      * left. split; [simpl; by rewrite Hlen|].
        by rewrite printing_printing.
      * right. exists t', e. split; [exact Ht'|]. split; [exact He|].
        by rewrite printing_printing.
    + exists []. split; [constructor|]. right. exists t, e.
      split; [done|]. split; [exact Hrow|].
      cbn [for_each]. rewrite run_bind. unfold lift at 1. cbn [run].
      rewrite Hrow. by rewrite printing_nil.
Qed.

(** [list], case by case: what [list_tickets] raises leaves [list] as it
    is; no ticket gives the one line; tickets give the heading, the rule
    and the rows of the tickets in order, up to the first ticket that has
    no row, where the command stops with what the row raised. *)
Lemma run_list_cases (o : Main.obj) (status : option string)
    (priority : option Z) (limit : Z) (filters : dict) (w w1 : world)
    (r1 : result (list Ticket.t)) :
  Main.list_filters status priority = Ok filters →
  run (FreshserviceClient.list_tickets (Main.client o) (Some filters) limit) w
    = (r1, w1) →
  match r1 with
  | Raise e => run (Main.list o status priority limit) w = (Raise e, w1)
  | Ok tickets =>
      if bool_decide (tickets = [])
      then run (Main.list o status priority limit) w
           = (Ok tt, printing ["No tickets found."] w1)
      else
        ∃ rows,
          Forall2 (λ t row, Main.list_row t = Ok row)
            (take (length rows) tickets) rows
          ∧ ((length rows = length tickets
              ∧ run (Main.list o status priority limit) w
                = (Ok tt, printing (Wire.table rows) w1))
             ∨ (∃ t e, tickets !! length rows = Some t
                  ∧ Main.list_row t = Raise e
                  ∧ run (Main.list o status priority limit) w
                    = (Raise e, printing (Wire.table rows) w1)))
  end.
Proof.
  intros Hf Hget.
  assert (Hlist : run (Main.list o status priority limit) w
    = match r1 with
      | Ok tickets =>
          run (if bool_decide (tickets = [])
               then Click.echo "No tickets found."
               else
                 Click.echo
                   "ID         Subject                                    Status       Priority   ";;
                 Click.echo (replicate_char 72 "-");;
                 for_each tickets (λ ticket,
                   row ← lift (Main.list_row ticket); Click.echo row)) w1
      | Raise e => (Raise e, w1)
      end).
  { unfold Main.list. rewrite run_bind. unfold lift at 1. cbn [run].
    rewrite Hf. rewrite run_bind, Hget. by destruct r1. }
  rewrite Hlist. clear Hlist.
  destruct r1 as [tickets|e]; [|done].
  destruct (bool_decide (tickets = [])); [done|].
  rewrite run_bind, run_echo, run_bind, run_echo.
  destruct (run_list_loop_cases tickets
              (printing [replicate_char 72 "-"]
                 (printing
                    ["ID         Subject                                    Status       Priority   "]
                    w1))) as (rows & Hall & Hrun).
  exists rows. split; [exact Hall|].
  destruct Hrun as [(Hlen & ->)|(t & e & Ht & He & ->)].
  - left. split; [exact Hlen|]. by rewrite !printing_printing.
  - right. exists t, e. split; [exact Ht|]. split; [exact He|].
    by rewrite !printing_printing.
Qed.

Lemma stdout_list_tickets (self : FreshserviceClient.t)
    (filters : option dict) (limit : Z) (w : world) :
  stdout (run (FreshserviceClient.list_tickets self filters limit) w).2
  = stdout w.
Proof. by rewrite run_list_tickets. Qed.

(** C2.  The subjects [list] shows.  When [list] has tickets to show, it
    prints the heading, the rule and rows; the row at each place is the row
    of the ticket at that place, whose subject is a string [s], and reads:
    the id column, a space, the subject column, a space, and the rest.  The
    subject column has the first 37 characters of [s] followed by "..."
    when [s] has more than 40 characters, and [s] itself otherwise,
    left-aligned in the 40 characters of the column (a cut subject fills
    the column, a shorter one is followed by spaces).  Every ticket has its
    row when all of them can be shown. *)
Theorem list_shows_subject (o : Main.obj) (status : option string)
    (priority : option Z) (limit : Z) (w w1 : world) (filters : dict)
    (tickets : list Ticket.t) :
  Main.list_filters status priority = Ok filters →
  run (FreshserviceClient.list_tickets (Main.client o) (Some filters) limit) w
    = (Ok tickets, w1) →
  tickets ≠ [] →
  ∃ rows,
    (run (Main.list o status priority limit) w).2
      = printing (Wire.table rows) w1
    ∧ (length rows ≤ length tickets)%nat
    ∧ (Forall (λ t, Wire.showable t = true) tickets →
         length rows = length tickets
         ∧ (run (Main.list o status priority limit) w).1 = Ok tt)
    ∧ ∀ i t row, tickets !! i = Some t → rows !! i = Some row →
        ∃ s id_column rest,
          Ticket.subject t = VStr s
          ∧ format_left 10 (Ticket.id t) = Ok id_column
          ∧ row = id_column +:+ " "
                  +:+ ljust 40 (if (40 <? String.length s)%nat
                                then String.substring 0 37 s +:+ "..."
                                else s)
                  +:+ " " +:+ rest
          ∧ ((40 < String.length s)%nat →
               ljust 40 (if (40 <? String.length s)%nat
                         then String.substring 0 37 s +:+ "..." else s)
               = String.substring 0 37 s +:+ "...")
          ∧ ((String.length s ≤ 40)%nat →
               ljust 40 (if (40 <? String.length s)%nat
                         then String.substring 0 37 s +:+ "..." else s)
               = s +:+ replicate_char (40 - String.length s) " ").
Proof.
  intros Hf Hget Hne.
  pose proof (run_list_cases o status priority limit filters w w1 _ Hf Hget)
    as Hcases. cbv beta iota in Hcases.
  rewrite bool_decide_eq_false_2 in Hcases by done.
  destruct Hcases as (rows & Hall & Hrun).
  exists rows.
  assert (Hlen : (length rows ≤ length tickets)%nat).
  { apply Forall2_length in Hall. rewrite length_take in Hall. lia. }
  split; [|split; [exact Hlen|split]].
  - by destruct Hrun as [(_ & ->)|(t & e & _ & _ & ->)].
  - intros Hshow.
    destruct Hrun as [(Hall' & ->)|(t & e & Ht & He & _)]; [done|].
    exfalso. eapply Forall_lookup_1 in Hshow; [|exact Ht].
    apply list_row_showable in Hshow as [row Hrow]. congruence.
  - intros i t row Ht Hrow.
    assert (Hi : (i < length rows)%nat) by (by eapply lookup_lt_Some).
    assert (Hti : take (length rows) tickets !! i = Some t)
      by (by rewrite lookup_take_lt).
    pose proof (Forall2_lookup_lr _ _ _ _ _ _ Hall Hti Hrow) as Hr.
    apply list_row_inv in Hr as (s & c1 & sd & pd & Hs & Hc1 & _ & _ & ->).
    exists s, c1. eexists. split; [exact Hs|]. split; [exact Hc1|].
    split; [reflexivity|]. split.
    + intros Hlong. destruct (Nat.ltb_spec 40 (String.length s)); [|lia].
      apply ljust_full. rewrite string_app_length, length_substring_0 by lia.
      simpl. lia.
    + intros Hshort. destruct (Nat.ltb_spec 40 (String.length s)); [lia|].
      reflexivity.
Qed.

Lemma list_shows_subject_witness :
  Main.list_filters None None = Ok []
  ∧ ∃ rows,
      (run (Main.list Sample.ctx None None 20)
         (Sample.answering 200 (Some Sample.long_subject))).2
      = printing (Wire.table rows)
          (sending (Wire.list_request Sample.client)
             (Sample.answering 200 (Some Sample.long_subject)))
      ∧ rows = ["12         The printer on the third floor prints... Open         Low       ";
                "13         Short                                    0            0         "].
Proof.
  split; [reflexivity|].
  destruct (list_shows_subject Sample.ctx None None 20
              (Sample.answering 200 (Some Sample.long_subject)) _ []
              _ eq_refl eq_refl ltac:(discriminate))
    as (rows & Hrun & _).
  exists rows. split; [exact Hrun|].
  assert (Hv : (run (Main.list Sample.ctx None None 20)
                  (Sample.answering 200 (Some Sample.long_subject))).2
               = printing
                   (Wire.table
                      ["12         The printer on the third floor prints... Open         Low       ";
                       "13         Short                                    0            0         "])
                   (sending (Wire.list_request Sample.client)
                      (Sample.answering 200 (Some Sample.long_subject))))
    by reflexivity.
  rewrite Hv in Hrun. by injection Hrun as ->.
Defined.

(** What [list] writes on standard output, whatever happens: nothing, the
    one line, or the table of the first tickets that [list_tickets]
    returned. *)
Lemma list_prints (o : Main.obj) (status : option string)
    (priority : option Z) (limit : Z) (filters : dict) (w : world) :
  Main.list_filters status priority = Ok filters →
  ∃ lines,
    stdout (run (Main.list o status priority limit) w).2 = stdout w ++ lines
    ∧ (lines = [] ∨ lines = ["No tickets found."]
       ∨ ∃ all w1 tickets rows,
           run (FreshserviceClient.list_tickets (Main.client o)
                  (Some filters) limit) w = (Ok all, w1)
           ∧ tickets `prefix_of` all
           ∧ lines = Wire.table rows
           ∧ Forall2 (λ t row, Main.list_row t = Ok row) tickets rows).
Proof.
  intros Hf.
  destruct (run (FreshserviceClient.list_tickets (Main.client o)
                   (Some filters) limit) w) as [r1 w1] eqn:Hget.
  assert (Hout : stdout w1 = stdout w).
  { pose proof (stdout_list_tickets (Main.client o) (Some filters) limit w)
      as H. by rewrite Hget in H. }
  pose proof (run_list_cases o status priority limit filters w w1 r1 Hf Hget)
    as Hcases.
  destruct r1 as [all|e].
  - destruct (bool_decide (all = [])).
    + exists ["No tickets found."]. rewrite Hcases. simpl. rewrite Hout. auto.
    + destruct Hcases as (rows & Hall & Hrun).
      exists (Wire.table rows). split.
      * destruct Hrun as [(_ & ->)|(t & e & _ & _ & ->)];
          simpl; by rewrite Hout.
      * right. right. exists all, w1, (take (length rows) all), rows.
        split; [done|]. split; [apply prefix_take|]. done.
  - exists []. rewrite Hcases. simpl. rewrite Hout, app_nil_r. auto.
Qed.

Lemma prefix_Forall {A} (P : A → Prop) (l k : list A) :
  l `prefix_of` k → Forall P k → Forall P l.
Proof. intros [l' ->] H. by apply Forall_app in H as [H _]. Qed.

Lemma Forall2_with_left {A B} (P : A → Prop) (R : A → B → Prop)
    (l : list A) (k : list B) :
  Forall P l → Forall2 R l k → Forall2 (λ x y, R x y ∧ P x) l k.
Proof.
  intros HP HR. induction HR as [|x y l k Hxy _ IH]; [constructor|].
  apply Forall_cons in HP as [Hx HP]. constructor; auto.
Qed.

(** C3.  The filters of [list_tickets] and of [list --status].
    (1) Whatever the server answers, the tickets [list_tickets] returns
    under filters with a "status" (resp. "priority") entry all have a
    status (resp. priority) equal to the value of the entry, in the sense
    of the [==] the code applies.
    (2) [list] maps the names open, pending, resolved, closed to the filter
    codes 2, 3, 4, 5.
    (3) Whatever the server answers, what [list --status NAME] prints is
    nothing, the line "No tickets found.", or the table of tickets that
    [list_tickets] returned, each with a status equal to the code of the
    name: with [--status open], only tickets whose raw status equals 2.
    (4) A value equal to the integer [n] is [n] itself, the float of that
    value ([2.0] for 2), or [True] and [False] for 1 and 0. *)
Theorem list_status_filter :
  (∀ self filters limit w w' tickets,
     run (FreshserviceClient.list_tickets self (Some filters) limit) w
       = (Ok tickets, w') →
     (∀ v, dict_lookup "status" filters = Some v →
           Forall (λ t, py_eq (Ticket.status t) v = true) tickets)
     ∧ (∀ v, dict_lookup "priority" filters = Some v →
             Forall (λ t, py_eq (Ticket.priority t) v = true) tickets))
  ∧ (∀ name code priority,
       (name, code) ∈ [("open", 2); ("pending", 3); ("resolved", 4);
                       ("closed", 5)]%Z →
       ∃ filters,
         Main.list_filters (Some name) priority = Ok filters
         ∧ dict_lookup "status" filters = Some (VInt code))
  ∧ (∀ o name code priority limit w,
       (name, code) ∈ [("open", 2); ("pending", 3); ("resolved", 4);
                       ("closed", 5)]%Z →
       ∃ lines,
         stdout (run (Main.list o (Some name) priority limit) w).2
           = stdout w ++ lines
         ∧ (lines = [] ∨ lines = ["No tickets found."]
            ∨ ∃ filters all w1 tickets rows,
                Main.list_filters (Some name) priority = Ok filters
                ∧ run (FreshserviceClient.list_tickets (Main.client o)
                         (Some filters) limit) w = (Ok all, w1)
                ∧ tickets `prefix_of` all
                ∧ lines = Wire.table rows
                ∧ Forall2 (λ t row,
                     Main.list_row t = Ok row
                     ∧ py_eq (Ticket.status t) (VInt code) = true)
                    tickets rows))
  ∧ (∀ o priority limit w,
       ∃ lines,
         stdout (run (Main.list o (Some "open") priority limit) w).2
           = stdout w ++ lines
         ∧ (lines = [] ∨ lines = ["No tickets found."]
            ∨ ∃ tickets rows,
                lines = Wire.table rows
                ∧ Forall2 (λ t row,
                     Main.list_row t = Ok row
                     ∧ py_eq (Ticket.status t) (VInt 2) = true)
                    tickets rows))
  ∧ (∀ x n,
       py_eq x (VInt n) = true ↔
       x = VInt n
       ∨ (∃ b, x = VBool b ∧ Z.b2z b = n)
       ∨ (∃ f, x = VFloat f ∧ PyFloat.to_int f = Some n)).
Proof.
  assert (Hmap : ∀ name code priority,
    (name, code) ∈ [("open", 2); ("pending", 3); ("resolved", 4);
                    ("closed", 5)]%Z →
    ∃ filters,
      Main.list_filters (Some name) priority = Ok filters
      ∧ dict_lookup "status" filters = Some (VInt code)).
  { intros name code priority Hin.
    assert (∃ filters, Main.list_filters (Some name) priority = Ok filters)
      as [filters Hf].
    { repeat (apply elem_of_cons in Hin as [[= -> ->]|Hin]);
        [..|by apply elem_of_nil in Hin];
        unfold Main.list_filters; simpl;
        destruct priority as [p|]; try destruct (p =? 0)%Z; simpl; eauto. }
    exists filters. split; [exact Hf|]. by eapply list_filters_status. }
  assert (Hlist : ∀ o name code priority limit w,
    (name, code) ∈ [("open", 2); ("pending", 3); ("resolved", 4);
                    ("closed", 5)]%Z →
    ∃ lines,
      stdout (run (Main.list o (Some name) priority limit) w).2
        = stdout w ++ lines
      ∧ (lines = [] ∨ lines = ["No tickets found."]
         ∨ ∃ filters all w1 tickets rows,
             Main.list_filters (Some name) priority = Ok filters
             ∧ run (FreshserviceClient.list_tickets (Main.client o)
                      (Some filters) limit) w = (Ok all, w1)
             ∧ tickets `prefix_of` all
             ∧ lines = Wire.table rows
             ∧ Forall2 (λ t row,
                  Main.list_row t = Ok row
                  ∧ py_eq (Ticket.status t) (VInt code) = true)
                 tickets rows)).
  { intros o name code priority limit w Hin.
    destruct (Hmap name code priority Hin) as (filters & Hf & Hst).
    destruct (list_prints o (Some name) priority limit filters w Hf)
      as (lines & Hout & Hlines).
    exists lines. split; [exact Hout|].
    destruct Hlines as [->|[->|(all & w1 & tickets & rows & Hget & Hpre
                                & -> & Hrows)]]; [auto | auto |].
    right. right. exists filters, all, w1, tickets, rows.
    repeat (split; [done|]).
    apply Forall2_with_left; [|exact Hrows].
    apply (prefix_Forall _ _ _ Hpre).
    apply list_tickets_returned in Hget as (c & data & parsed & _ & _ & _ & ->).
    by apply Forall_slice_to, apply_filters_status. }
  split; [|split; [exact Hmap|split; [exact Hlist|split]]].
  - intros self filters limit w w' tickets
      (code & data & all & _ & _ & _ & ->)%list_tickets_returned.
    split; intros v Hv; apply Forall_slice_to;
      [by apply apply_filters_status | by apply apply_filters_priority].
  - intros o priority limit w.
    destruct (Hlist o "open" 2%Z priority limit w) as (lines & Hout & Hlines);
      [apply list_elem_of_here|].
    exists lines. split; [exact Hout|].
    destruct Hlines as [->|[->|(filters & all & w1 & tickets & rows & _ & _
                                & _ & -> & Hrows)]]; eauto 10.
  - apply py_eq_int_cases.
Qed.

(** C4.  The limit is not a maximum when it is negative.  Against a server
    that returns three tickets, [list --limit -1] shows two of them:
    [list_tickets] returns all but the last, more than any maximum of -1
    would allow.  (With [--status closed --limit 1] against the same
    server, of statuses 2, 5, 5, the one ticket shown is the first closed
    one.) *)
Theorem list_negative_limit :
  run (FreshserviceClient.list_tickets Sample.client (Some []) (-1))
      (Sample.answering 200 (Some Sample.three_tickets))
  = (Ok [Sample.ticket 1 2 "Printer offline";
         Sample.ticket 2 5 "VPN drops every hour"],
     sending (Wire.list_request Sample.client)
       (Sample.answering 200 (Some Sample.three_tickets)))
  ∧ ¬ (Z.of_nat (length [Sample.ticket 1 2 "Printer offline";
                         Sample.ticket 2 5 "VPN drops every hour"]) ≤ -1)%Z
  ∧ Main.process Sample.exc_str ∅ (Sample.argv (Main.List None None (-1)))
      (Sample.answering 200 (Some Sample.three_tickets))
    = (Wire.table
         ["1          Printer offline                          Open         Low       ";
          "2          VPN drops every hour                     Closed       Low       "],
       {| Click.code := 0; Click.stderr := Click.Silent |})
  ∧ Main.process Sample.exc_str ∅
      (Sample.argv (Main.List (Some "closed") None 1))
      (Sample.answering 200 (Some Sample.three_tickets))
    = (Wire.table
         ["2          VPN drops every hour                     Closed       Low       "],
       {| Click.code := 0; Click.stderr := Click.Silent |}).
Proof.
  split; [reflexivity|]. split; [simpl; lia|]. split; reflexivity.
Qed.


(* ===================================================================== *)
(** * Further properties of the code                                      *)
(* ===================================================================== *)

(** ** config.py *)


(** [load_from_env] reads what [Config()] reads: the object it leaves
    is the one the constructor builds from the same environment, whatever
    the object held before, and loading twice is loading once. *)
Theorem load_from_env_is_init (st : Config.state) :
  Config.self (Config.load_from_env st).2
    = Config.__init__ (Config.environ st)
  ∧ (Config.load_from_env st).1
    = truthy_str (Config.api_key (Config.__init__ (Config.environ st)))
  ∧ Config.load_from_env (Config.load_from_env st).2
    = Config.load_from_env st
  ∧ ∀ st', Config.environ st' = Config.environ st →
           Config.load_from_env st' = Config.load_from_env st.
Proof.
  repeat split. intros st' H. unfold Config.load_from_env. by rewrite H.
Qed.

(** ** api.py: building tickets *)

Lemma from_dict_agree (d d' : dict) :
  (∀ key, key ∈ Wire.ticket_keys → dict_lookup key d = dict_lookup key d') →
  Ticket.from_dict (VDict d) = Ticket.from_dict (VDict d').
Proof.
  intros H. unfold Ticket.from_dict, dict_item, dict_get.
  rewrite !(H _) by (unfold Wire.ticket_keys; set_solver).
  reflexivity.
Qed.

(** X2.  [from_dict] looks at nine keys and nothing else: two response
    dictionaries that agree on them (whatever other keys they have, in
    whatever order) give the same ticket, or fail alike. *)
Theorem from_dict_reads_nine_keys (d d' : dict) :
  (∀ key, key ∈ Wire.ticket_keys → dict_lookup key d = dict_lookup key d') →
  Ticket.from_dict (VDict d) = Ticket.from_dict (VDict d').
Proof. apply from_dict_agree. Qed.

Lemma from_dict_reads_nine_keys_witness :
  Ticket.from_dict
    (VDict [("status", VInt 3); ("spam", VBool false); ("id", VInt 7)])
  = Ticket.from_dict (VDict [("id", VInt 7); ("status", VInt 3)]).
Proof.
  apply from_dict_reads_nine_keys.
  intros key Hkey. unfold Wire.ticket_keys in Hkey.
  repeat (apply elem_of_cons in Hkey as [->|Hkey]; [reflexivity|]).
  by apply elem_of_nil in Hkey.
Defined.

Lemma from_dict_fails_id (d : dict) :
  match dict_lookup "id" d with
  | Some v => ∃ t, Ticket.from_dict (VDict d) = Ok t ∧ "id" ∈ d.*1
  | None => Ticket.from_dict (VDict d) = Raise (KeyError "id") ∧ "id" ∉ d.*1
  end.
Proof.
  destruct (dict_lookup "id" d) as [v|] eqn:Hid.
  - eexists. split.
    + unfold Ticket.from_dict, dict_item. rewrite Hid. reflexivity.
    + destruct (decide ("id" ∈ d.*1)) as [|Hn]; [done|].
      apply dict_lookup_None in Hn. congruence.
  - split; [|by apply dict_lookup_None].
    unfold Ticket.from_dict, dict_item. by rewrite Hid.
Qed.

Lemma mapM_from_dict_dicts (ds : list dict) :
  (Forall (λ d, "id" ∈ d.*1) ds
   ∧ ∃ tickets, mapM Ticket.from_dict (VDict <$> ds) = Ok tickets
                ∧ length tickets = length ds)
  ∨ (Exists (λ d, "id" ∉ d.*1) ds
     ∧ mapM Ticket.from_dict (VDict <$> ds) = Raise (KeyError "id")).
Proof.
  induction ds as [|d ds IH].
  - left. split; [constructor|]. by exists [].
  - pose proof (from_dict_fails_id d) as Hd.
    destruct (dict_lookup "id" d) as [v|] eqn:Hid.
    + destruct Hd as (t & Ht & Hin).
      destruct IH as [(Hall & ts & Hts & Hlen)|(Hex & Hraise)].
      * left. split; [by constructor|]. exists (t :: ts).
        cbn [fmap list_fmap mapM]. change (list_fmap _ _ VDict ds) with (VDict <$> ds).
        rewrite Ht. cbn. rewrite Hts. cbn. by rewrite Hlen.
      * right. split; [by apply Exists_cons_tl|].
        cbn [fmap list_fmap mapM]. change (list_fmap _ _ VDict ds) with (VDict <$> ds).
        rewrite Ht. cbn. by rewrite Hraise.
    + destruct Hd as (Hraise & Hnot). right. split; [by apply Exists_cons_hd|].
      cbn [fmap list_fmap mapM]. by rewrite Hraise.
Qed.

(** X3.  One ticket object without "id" fails the whole listing.  When the
    body lists ticket objects, [list_tickets] returns a ticket for each of
    them if all have the key "id"; if one lacks it, [list_tickets] raises
    the [KeyError] of "id", whatever the filters and the limit are, also
    when they would have left that ticket out. *)
Theorem list_tickets_all_or_nothing (self : FreshserviceClient.t)
    (filters : option dict) (limit : Z) (w : world) (code : Z) (body : dict)
    (ds : list dict) :
  server w (Wire.list_request self) = Response code (Some (VDict body)) →
  Wire.success code = true →
  dict_lookup "tickets" body = Some (VList (VDict <$> ds)) →
  (Forall (λ d, "id" ∈ d.*1) ds →
     ∃ all, FreshserviceClient.parse_tickets (VDict body) = Ok all
       ∧ length all = length ds
       ∧ run (FreshserviceClient.list_tickets self filters limit) w
         = (Ok (slice_to limit (FreshserviceClient.apply_filters filters all)),
            sending (Wire.list_request self) w))
  ∧ (Exists (λ d, "id" ∉ d.*1) ds →
       run (FreshserviceClient.list_tickets self filters limit) w
       = (Raise (KeyError "id"), sending (Wire.list_request self) w)).
Proof.
  intros Hreply Hcode Hbody.
  assert (Hparse : FreshserviceClient.parse_tickets (VDict body)
                   = mapM Ticket.from_dict (VDict <$> ds)).
  { unfold FreshserviceClient.parse_tickets, dict_get. by rewrite Hbody. }
  rewrite run_list_tickets, Hreply. unfold Wire.outcome, Wire.decoded.
  rewrite Hcode, Hparse.
  destruct (mapM_from_dict_dicts ds) as [(Hall & ts & Hts & Hlen)|(Hex & Hr)].
  - split.
    + intros _. exists ts. by rewrite Hts.
    + intros Hex. exfalso. apply Exists_exists in Hex as (d & Hd & Hno).
      eapply Forall_forall in Hall; [|exact Hd]. done.
  - split.
    + intros Hall. exfalso. apply Exists_exists in Hex as (d & Hd & Hno).
      eapply Forall_forall in Hall; [|exact Hd]. done.
    + intros _. by rewrite Hr.
Qed.

Lemma list_tickets_all_or_nothing_witness :
  Exists (λ d : dict, "id" ∉ d.*1)
    [[("id", VInt 1); ("status", VInt 2)]; [("status", VInt 5)]]
  ∧ run (FreshserviceClient.list_tickets Sample.client
           (Some [("status", VInt 2)]) 1)
        (Sample.answering 200 (Some Sample.one_without_id))
    = (Raise (KeyError "id"),
       sending (Wire.list_request Sample.client)
         (Sample.answering 200 (Some Sample.one_without_id))).
Proof.
  assert (Hex : Exists (λ d : dict, "id" ∉ d.*1)
            [[("id", VInt 1); ("status", VInt 2)]; [("status", VInt 5)]]).
  { apply Exists_cons_tl, Exists_cons_hd. simpl.
    apply not_elem_of_cons. split; [done | apply not_elem_of_nil]. }
  split; [exact Hex|].
  exact (proj2 (list_tickets_all_or_nothing Sample.client
                  (Some [("status", VInt 2)]) 1
                  (Sample.answering 200 (Some Sample.one_without_id)) 200
                  [("tickets",
                    VList [VDict [("id", VInt 1); ("status", VInt 2)];
                           VDict [("status", VInt 5)]])]
                  [[("id", VInt 1); ("status", VInt 2)]; [("status", VInt 5)]]
                  eq_refl eq_refl eq_refl) Hex).
Defined.

(** ** api.py: filtering and truncation *)

Lemma list_filter_filter {A} (f g : A → bool) (l : list A) :
  List.filter g (List.filter f l) = List.filter (λ x, f x && g x) l.
Proof.
  induction l as [|x l IH]; [done|]. simpl.
  destruct (f x); simpl; [destruct (g x)|]; by rewrite IH.
Qed.

Lemma list_filter_true {A} (l : list A) : List.filter (λ _, true) l = l.
Proof. induction l as [|x l IH]; [done|]. simpl. by rewrite IH. Qed.

Lemma list_filter_ext {A} (f g : A → bool) (l : list A) :
  (∀ x, f x = g x) → List.filter f l = List.filter g l.
Proof.
  intros H. induction l as [|x l IH]; [done|]. simpl. by rewrite H, IH.
Qed.

Lemma apply_filters_filter (f : dict) (tickets : list Ticket.t) :
  FreshserviceClient.apply_filters (Some f) tickets
  = List.filter (Wire.passes f) tickets.
Proof.
  unfold FreshserviceClient.apply_filters, Wire.passes.
  destruct f as [|kv f].
  - simpl. by rewrite list_filter_true.
  - simpl truthy. cbv iota.
    destruct (dict_lookup "status" (kv :: f)) as [v|],
             (dict_lookup "priority" (kv :: f)) as [v'|].
    + apply list_filter_filter.
    + apply list_filter_ext. intros t. by rewrite andb_true_r.
    + done.
    + simpl. by rewrite list_filter_true.
Qed.

(** X4.  The two comprehensions of [list_tickets] keep exactly the tickets
    that pass every filter given, in their order: a ticket of the response
    is kept if and only if it passes.  With no filters, with an empty
    dictionary, or with a dictionary that has neither "status" nor
    "priority", every ticket is kept. *)
Theorem apply_filters_passes (f : dict) (tickets : list Ticket.t) :
  FreshserviceClient.apply_filters (Some f) tickets
    = List.filter (Wire.passes f) tickets
  ∧ (∀ t, t ∈ FreshserviceClient.apply_filters (Some f) tickets
          ↔ t ∈ tickets ∧ Wire.passes f t = true)
  ∧ FreshserviceClient.apply_filters None tickets = tickets
  ∧ FreshserviceClient.apply_filters (Some []) tickets = tickets
  ∧ (dict_lookup "status" f = None → dict_lookup "priority" f = None →
       FreshserviceClient.apply_filters (Some f) tickets = tickets).
Proof.
  pose proof (apply_filters_filter f tickets) as Heq.
  split; [exact Heq|]. split; [|split; [done|split; [done|]]].
  - intros t. rewrite Heq, !list_elem_of_In, filter_In. done.
  - intros Hs Hp. rewrite Heq. unfold Wire.passes. rewrite Hs, Hp.
    apply list_filter_true.
Qed.

(** X5.  How many tickets come back.  For a limit [N >= 0], [list_tickets]
    returns as many tickets as pass the filters, up to [N]: exactly [N]
    when at least [N] pass, all that pass otherwise.  No ticket that passes
    is lost to a ticket that does not. *)
Theorem list_tickets_count (self : FreshserviceClient.t) (f : dict)
    (limit : Z) (w : world) (code : Z) (data : value) (all : list Ticket.t) :
  (0 ≤ limit)%Z →
  server w (Wire.list_request self) = Response code (Some data) →
  Wire.success code = true →
  FreshserviceClient.parse_tickets data = Ok all →
  ∃ tickets,
    run (FreshserviceClient.list_tickets self (Some f) limit) w
      = (Ok tickets, sending (Wire.list_request self) w)
    ∧ tickets = take (Z.to_nat limit) (List.filter (Wire.passes f) all)
    ∧ length tickets
      = Nat.min (Z.to_nat limit) (length (List.filter (Wire.passes f) all)).
Proof.
  intros Hlimit Hreply Hcode Hall.
  exists (take (Z.to_nat limit) (List.filter (Wire.passes f) all)).
  split; [|split; [done | apply length_take]].
  rewrite run_list_tickets, Hreply. unfold Wire.outcome, Wire.decoded.
  rewrite Hcode, Hall. unfold mbind, result_bind, mret, result_ret.
  rewrite slice_to_nonneg by done.
  by rewrite apply_filters_filter.
Qed.

Lemma list_tickets_count_witness :
  (0 ≤ 5)%Z
  ∧ ∃ tickets,
      run (FreshserviceClient.list_tickets Sample.client
             (Some [("status", VInt 5)]) 5)
          (Sample.answering 200 (Some Sample.three_tickets))
      = (Ok tickets,
         sending (Wire.list_request Sample.client)
           (Sample.answering 200 (Some Sample.three_tickets)))
      ∧ length tickets = 2.
Proof.
  split; [lia|].
  destruct (list_tickets_count Sample.client [("status", VInt 5)] 5
              (Sample.answering 200 (Some Sample.three_tickets)) 200
              Sample.three_tickets
              [Sample.ticket 1 2 "Printer offline";
               Sample.ticket 2 5 "VPN drops every hour";
               Sample.ticket 3 5 "New laptop"]
              ltac:(lia) eq_refl eq_refl eq_refl) as (ts & Hrun & _ & Hlen).
  exists ts. split; [exact Hrun | exact Hlen].
Defined.

(** X6.  A negative limit cuts from the end.  With a limit [-k], [k > 0],
    [list_tickets] returns the filtered tickets without their last [k]:
    none at all when at most [k] tickets pass the filters. *)
Theorem list_tickets_negative (self : FreshserviceClient.t)
    (filters : option dict) (k : nat) (w : world) (code : Z) (data : value)
    (all : list Ticket.t) :
  (0 < k)%nat →
  server w (Wire.list_request self) = Response code (Some data) →
  Wire.success code = true →
  FreshserviceClient.parse_tickets data = Ok all →
  let filtered := FreshserviceClient.apply_filters filters all in
  run (FreshserviceClient.list_tickets self filters (- Z.of_nat k)) w
    = (Ok (take (length filtered - k) filtered),
       sending (Wire.list_request self) w)
  ∧ length (take (length filtered - k) filtered) = (length filtered - k)%nat
  ∧ (filtered ≠ [] → take (length filtered - k) filtered ≠ filtered).
Proof.
  intros Hk Hreply Hcode Hall filtered.
  split; [|split].
  - rewrite run_list_tickets, Hreply. unfold Wire.outcome, Wire.decoded.
    rewrite Hcode, Hall. simpl. unfold slice_to.
    destruct (Z.leb_spec 0 (- Z.of_nat k)); [lia|].
    by rewrite Z.opp_involutive, Nat2Z.id.
  - rewrite length_take. lia.
  - intros Hne Heq. apply (f_equal length) in Heq.
    rewrite length_take in Heq.
    destruct filtered; [done|]. simpl in Heq. lia.
Qed.

Lemma list_tickets_negative_witness :
  (0 < 2)%nat
  ∧ run (FreshserviceClient.list_tickets Sample.client None (-2))
        (Sample.answering 200 (Some Sample.three_tickets))
    = (Ok [Sample.ticket 1 2 "Printer offline"],
       sending (Wire.list_request Sample.client)
         (Sample.answering 200 (Some Sample.three_tickets))).
Proof.
  split; [lia|].
  exact (proj1 (list_tickets_negative Sample.client None 2
                  (Sample.answering 200 (Some Sample.three_tickets)) 200
                  Sample.three_tickets
                  [Sample.ticket 1 2 "Printer offline";
                   Sample.ticket 2 5 "VPN drops every hour";
                   Sample.ticket 3 5 "New laptop"]
                  ltac:(lia) eq_refl eq_refl eq_refl)).
Defined.

(** ** What the commands send *)

Lemma for_each_echo_world (tickets : list Ticket.t) (w : world) :
  sent (run (for_each tickets (λ ticket,
               row ← lift (Main.list_row ticket); Click.echo row)) w).2
    = sent w.
Proof.
  revert w. induction tickets as [|t tickets IH]; intros w; [done|].
  cbn [for_each]. rewrite !run_bind. unfold lift at 1. cbn [run].
  destruct (Main.list_row t) as [row|e]; [|done].
  rewrite run_echo.
  destruct (run (for_each tickets _) (printing [row] w)) as [[[]|e] w'] eqn:Hrun;
    specialize (IH (printing [row] w)); rewrite Hrun in IH; exact IH.
Qed.

Lemma list_sent (o : Main.obj) (status : option string)
    (priority : option Z) (limit : Z) (filters : dict) (w : world) :
  Main.list_filters status priority = Ok filters →
  sent (run (Main.list o status priority limit) w).2
  = sent w ++ [Wire.list_request (Main.client o)].
Proof.
  intros Hf. unfold Main.list.
  rewrite run_bind. unfold lift at 1. cbn [run]. rewrite Hf.
  rewrite run_bind, run_list_tickets.
  destruct (Wire.outcome _ _) as [tickets|e]; [|done].
  destruct (bool_decide (tickets = [])); [done|].
  rewrite run_bind, run_echo, run_bind, run_echo.
  by rewrite for_each_echo_world.
Qed.

Lemma view_sent (exc_str : exn → string) (o : Main.obj) (ticket_id : Z)
    (w : world) :
  sent (run (Main.view exc_str o ticket_id) w).2
  = sent w ++ [Wire.get_request (Main.client o) ticket_id].
Proof.
  unfold Main.view.
  rewrite run_bind. unfold try_except. cbn [run].
  rewrite run_get_ticket.
  destruct (Wire.outcome _ _) as [t|e]; [|done].
  repeat (rewrite run_bind;
          first [rewrite run_echo | rewrite run_echo_value]).
  rewrite run_bind. unfold lift at 1. cbn [run].
  destruct (int_table_get _ (Ticket.status t) _) as [st|]; [|done].
  rewrite run_bind, run_echo.
  rewrite run_bind. unfold lift at 1. cbn [run].
  destruct (int_table_get _ (Ticket.priority t) _) as [pr|]; [|done].
  repeat (rewrite run_bind; rewrite run_echo).
  rewrite run_echo. done.
Qed.

(** X7.  [list] and [view] only read.  Each sends exactly one request, a
    GET without a body, whatever the server answers and whatever happens
    while the answer is printed; the request of [list] is the same for all
    filters and limits, which never reach the server. *)
Theorem list_and_view_send_one_get (exc_str : exn → string) (o : Main.obj)
    (w : world) :
  (∀ status priority limit filters,
     Main.list_filters status priority = Ok filters →
     sent (run (Main.list o status priority limit) w).2
       = sent w ++ [Wire.list_request (Main.client o)])
  ∧ (∀ ticket_id,
       sent (run (Main.view exc_str o ticket_id) w).2
         = sent w ++ [Wire.get_request (Main.client o) ticket_id])
  ∧ method (Wire.list_request (Main.client o)) = GET
  ∧ json (Wire.list_request (Main.client o)) = None
  ∧ url (Wire.list_request (Main.client o))
      = FreshserviceClient.base_url (Main.client o) +:+ "/tickets"
  ∧ (∀ ticket_id,
       method (Wire.get_request (Main.client o) ticket_id) = GET
       ∧ json (Wire.get_request (Main.client o) ticket_id) = None).
Proof.
  split; [|split; [|done]].
  - intros status priority limit filters Hf. by eapply list_sent.
  - intros ticket_id. apply view_sent.
Qed.

(** ** The commands at the edges *)

(** X8.  Nothing to list.  When the server answers with success and the
    body is a dictionary without the key "tickets", or when no ticket of
    the body passes the filters, or when the limit is 0, [list] prints the
    one line "No tickets found." and ends normally: no heading, no rule. *)
Theorem list_nothing_found (o : Main.obj) (status : option string)
    (priority : option Z) (limit : Z) (w : world) (filters : dict)
    (code : Z) (data : value) :
  Main.list_filters status priority = Ok filters →
  server w (Wire.list_request (Main.client o)) = Response code (Some data) →
  Wire.success code = true →
  (∃ d, data = VDict d ∧ "tickets" ∉ d.*1)
  ∨ (∃ all, FreshserviceClient.parse_tickets data = Ok all
       ∧ ((∀ t, t ∈ all → Wire.passes filters t = false) ∨ limit = 0%Z)) →
  run (Main.list o status priority limit) w
    = (Ok tt, printing ["No tickets found."]
                (sending (Wire.list_request (Main.client o)) w)).
Proof.
  intros Hf Hreply Hcode Hcases.
  assert (∃ all, FreshserviceClient.parse_tickets data = Ok all
            ∧ ((∀ t, t ∈ all → Wire.passes filters t = false) ∨ limit = 0%Z))
    as (all & Hall & Hnone).
  { destruct Hcases as [(d & -> & Hno)|H]; [|exact H].
    exists []. split; [|left; intros t Ht; by apply elem_of_nil in Ht].
    unfold FreshserviceClient.parse_tickets.
    by rewrite dict_get_absent. }
  assert (Hempty : slice_to limit
            (FreshserviceClient.apply_filters (Some filters) all) = []).
  { destruct Hnone as [Hnone| ->]; [|done].
    rewrite apply_filters_filter.
    replace (List.filter (Wire.passes filters) all) with (@nil Ticket.t).
    - unfold slice_to. destruct (0 <=? limit)%Z; apply take_nil.
    - symmetry. clear Hall. induction all as [|t all IH]; [done|].
      simpl. rewrite (Hnone t) by apply list_elem_of_here.
      apply IH. intros t' Ht'. apply Hnone. by apply list_elem_of_further. }
  rewrite (run_list_ok o status priority limit w
             (sending (Wire.list_request (Main.client o)) w) filters [] []
             Hf); [done | | done].
  rewrite run_list_tickets, Hreply. unfold Wire.outcome, Wire.decoded.
  rewrite Hcode, Hall. unfold mbind, result_bind, mret, result_ret.
  by rewrite Hempty.
Qed.

Lemma list_nothing_found_witness :
  Main.list_filters (Some "pending") None = Ok [("status", VInt 3)]
  ∧ run (Main.list Sample.ctx (Some "pending") None 20)
        (Sample.answering 200 (Some Sample.three_tickets))
    = (Ok tt, printing ["No tickets found."]
                (sending (Wire.list_request Sample.client)
                   (Sample.answering 200 (Some Sample.three_tickets))))
  ∧ run (Main.list Sample.ctx None None 20)
        (Sample.answering 200 (Some (VDict [("total", VInt 0)])))
    = (Ok tt, printing ["No tickets found."]
                (sending (Wire.list_request Sample.client)
                   (Sample.answering 200 (Some (VDict [("total", VInt 0)]))))).
Proof.
  split; [reflexivity|]. split.
  - refine (list_nothing_found Sample.ctx (Some "pending") None 20
              (Sample.answering 200 (Some Sample.three_tickets))
              [("status", VInt 3)] 200 Sample.three_tickets
              eq_refl eq_refl eq_refl _).
    right. exists [Sample.ticket 1 2 "Printer offline";
                   Sample.ticket 2 5 "VPN drops every hour";
                   Sample.ticket 3 5 "New laptop"].
    split; [reflexivity|]. left. intros t Ht.
    repeat (apply elem_of_cons in Ht as [->|Ht]; [reflexivity|]).
    by apply elem_of_nil in Ht.
  - refine (list_nothing_found Sample.ctx None None 20
              (Sample.answering 200 (Some (VDict [("total", VInt 0)])))
              [] 200 (VDict [("total", VInt 0)])
              eq_refl eq_refl eq_refl _).
    left. exists [("total", VInt 0)]. split; [reflexivity|]. simpl.
    apply not_elem_of_cons. split; [done | apply not_elem_of_nil].
Defined.

(** X9.  [view] shows a ticket or one error line.  Whatever makes
    [get_ticket] fail (no response, a status outside 200..299, a body that
    is not JSON, a body without "ticket", a ticket without "id"), [view]
    prints nothing and raises the [ClickException] whose message is
    "Failed to retrieve ticket: " followed by the text of the failure, so
    the process ends with exit code 1 and that one line. *)
Theorem view_failure (exc_str : exn → string) (o : Main.obj) (ticket_id : Z)
    (w : world) (e : exn) :
  Wire.outcome (Wire.decoded FreshserviceClient.parse_ticket)
    (server w (Wire.get_request (Main.client o) ticket_id)) = Raise e →
  run (Main.view exc_str o ticket_id) w
    = (Raise (ClickException ("Failed to retrieve ticket: " +:+ exc_str e)),
       sending (Wire.get_request (Main.client o) ticket_id) w)
  ∧ stdout (run (Main.view exc_str o ticket_id) w).2 = stdout w
  ∧ Click.finish (run (Main.view exc_str o ticket_id) w).1
    = {| Click.code := 1;
         Click.stderr :=
           Click.ErrorLine ("Failed to retrieve ticket: " +:+ exc_str e) |}.
Proof.
  intros He.
  assert (Hrun : run (Main.view exc_str o ticket_id) w
    = (Raise (ClickException ("Failed to retrieve ticket: " +:+ exc_str e)),
       sending (Wire.get_request (Main.client o) ticket_id) w)).
  { apply run_view_error. by rewrite run_get_ticket, He. }
  by rewrite Hrun.
Qed.

(** The failures of [get_ticket], one by one. *)
Lemma get_ticket_failures (body : option value) (d : dict) (code : Z) :
  Wire.outcome (Wire.decoded FreshserviceClient.parse_ticket) NoResponse
    = Raise RequestError
  ∧ (Wire.success code = false →
       Wire.outcome (Wire.decoded FreshserviceClient.parse_ticket)
         (Response code body) = Raise (HTTPStatusError code))
  ∧ (Wire.success code = true →
       Wire.outcome (Wire.decoded FreshserviceClient.parse_ticket)
         (Response code None) = Raise JSONDecodeError)
  ∧ (Wire.success code = true → "ticket" ∉ d.*1 →
       Wire.outcome (Wire.decoded FreshserviceClient.parse_ticket)
         (Response code (Some (VDict d))) = Raise (KeyError "ticket")).
Proof.
  unfold Wire.outcome, Wire.decoded. repeat split.
  - by intros ->.
  - by intros ->.
  - intros -> Hd%dict_lookup_None. unfold FreshserviceClient.parse_ticket,
      dict_item. by rewrite Hd.
Qed.

Lemma view_failure_witness :
  Wire.outcome (Wire.decoded FreshserviceClient.parse_ticket)
    (server (Sample.answering 200 (Some (VDict [("error", VStr "gone")])))
       (Wire.get_request Sample.client 7))
  = Raise (KeyError "ticket")
  ∧ Main.process Sample.exc_str ∅ (Sample.argv (Main.View 7))
      (Sample.answering 200 (Some (VDict [("error", VStr "gone")])))
    = ([], {| Click.code := 1;
              Click.stderr :=
                Click.ErrorLine "Failed to retrieve ticket: 'ticket'" |})
  ∧ Click.finish
      (run (Main.view Sample.exc_str Sample.ctx 7)
         (Sample.answering 200 (Some (VDict [("error", VStr "gone")])))).1
    = {| Click.code := 1;
         Click.stderr :=
           Click.ErrorLine "Failed to retrieve ticket: 'ticket'" |}.
Proof.
  split; [reflexivity|]. split; [reflexivity|].
  exact (proj2 (proj2 (view_failure Sample.exc_str Sample.ctx 7
                         (Sample.answering 200
                            (Some (VDict [("error", VStr "gone")])))
                         (KeyError "ticket") eq_refl))).
Defined.

(** X10.  [status] confirms only what the server accepted.  For a status
    name of the choice, the command prints its confirmation line exactly
    when the server answers the PUT with a status in 200..299, whatever the
    body (which is never read); with no response or any other status it
    prints nothing and raises the [ClickException] whose message is
    "Failed to update ticket status: " followed by the text of the
    failure. *)
Theorem status_outcomes (exc_str : exn → string) (o : Main.obj)
    (ticket_id : Z) (name : string) (code : Z) (w : world) :
  (name, code) ∈ [("open", 2); ("pending", 3); ("resolved", 4); ("closed", 5)]%Z →
  let rq := Wire.put_request (Main.client o) ticket_id code in
  let confirmation :=
    "Ticket #" +:+ pretty ticket_id +:+ " status updated to " +:+ name +:+ "." in
  let failed e :=
    Raise (ClickException ("Failed to update ticket status: " +:+ exc_str e)) in
  run (Main.status exc_str o ticket_id name) w =
    match server w rq with
    | Response c body =>
        if Wire.success c
        then (Ok tt, printing [confirmation] (sending rq w))
        else (failed (HTTPStatusError c), sending rq w)
    | NoResponse => (failed RequestError, sending rq w)
    end
  ∧ (stdout (run (Main.status exc_str o ticket_id name) w).2
       = stdout w ++ [confirmation]
     ↔ ∃ c body, server w rq = Response c body ∧ Wire.success c = true)
  ∧ ((run (Main.status exc_str o ticket_id name) w).1 ≠ Ok tt →
       stdout (run (Main.status exc_str o ticket_id name) w).2 = stdout w).
Proof.
  intros Hin rq confirmation failed.
  rewrite (run_status _ _ _ _ _ _ (status_code_of_name _ _ Hin)).
  fold rq. unfold Wire.outcome.
  assert (Hne : stdout w ≠ stdout w ++ [confirmation]).
  { intros H. apply (f_equal length) in H. rewrite length_app in H.
    simpl in H. lia. }
  destruct (server w rq) as [|c body]; [|destruct (Wire.success c) eqn:Hc];
    (split; [reflexivity|]); simpl.
  - split; [|done]. split; [intros H; by symmetry in H | intros (? & ? & ? & ?); done].
  - split; [|done]. split; [eauto | done].
  - split; [|done]. split; [intros H; by symmetry in H|].
    intros (c' & body' & [= <- <-] & Hc'). congruence.
Qed.

Lemma status_outcomes_witness :
  ("open", 2%Z) ∈ [("open", 2); ("pending", 3); ("resolved", 4); ("closed", 5)]%Z
  ∧ run (Main.status Sample.exc_str Sample.ctx 7 "open")
        (Sample.answering 404 (Some (VDict [])))
    = (Raise (ClickException "Failed to update ticket status: HTTP status 404"),
       sending (Wire.put_request Sample.client 7 2)
         (Sample.answering 404 (Some (VDict [])))).
Proof.
  assert (Hin : ("open", 2%Z) ∈
            [("open", 2); ("pending", 3); ("resolved", 4); ("closed", 5)]%Z)
    by apply list_elem_of_here.
  split; [exact Hin|].
  exact (proj1 (status_outcomes Sample.exc_str Sample.ctx 7 "open" 2
                  (Sample.answering 404 (Some (VDict []))) Hin)).
Defined.

(** ** Before any request *)

Lemma run_cli_ok (environ : gmap string string) (api_key : option string)
    (domain : string) (w : world) :
  truthy_str api_key = true →
  run (Main.cli environ api_key domain) w
  = (Ok {| Main.client :=
             FreshserviceClient.__init__ (default "" api_key) domain;
           Main.config := Config.__init__ environ |}, w).
Proof. intros H. unfold Main.cli. by rewrite H. Qed.

(** X11.  Without an API key nothing happens.  When neither [--api-key] nor
    FRESHSERVICE_API_KEY gives a key that is not empty, every command ends
    in the usage error of [cli]: no request is sent, nothing is printed,
    and the exit code is 2. *)
Theorem no_api_key_no_request (exc_str : exn → string)
    (environ : gmap string string) (a : Main.argv) (w : world) :
  truthy_str
    (Main.option_value (Main.opt_api_key a) environ "FRESHSERVICE_API_KEY")
    = false →
  run (Main.main exc_str environ a) w = (Raise Wire.missing_key, w)
  ∧ Main.process exc_str environ a w
    = (stdout w,
       {| Click.code := 2;
          Click.stderr := Click.UsageAndError Wire.missing_key |}).
Proof.
  intros Hkey.
  assert (Hrun : run (Main.main exc_str environ a) w
                 = (Raise Wire.missing_key, w)).
  { unfold Main.main. rewrite run_bind. unfold Main.cli. by rewrite Hkey. }
  split; [exact Hrun|]. unfold Main.process. by rewrite Hrun.
Qed.

Lemma no_api_key_no_request_witness :
  truthy_str
    (Main.option_value None {["FRESHSERVICE_API_KEY" := ""]}
       "FRESHSERVICE_API_KEY") = false
  ∧ Main.process Sample.exc_str {["FRESHSERVICE_API_KEY" := ""]}
      {| Main.opt_api_key := None; Main.opt_domain := None;
         Main.cmd := Main.Status 7 "closed" |}
      (Sample.answering 200 None)
    = ([], {| Click.code := 2;
              Click.stderr := Click.UsageAndError Wire.missing_key |}).
Proof.
  split; [reflexivity|].
  exact (proj2 (no_api_key_no_request Sample.exc_str
                  {["FRESHSERVICE_API_KEY" := ""]}
                  {| Main.opt_api_key := None; Main.opt_domain := None;
                     Main.cmd := Main.Status 7 "closed" |}
                  (Sample.answering 200 None) eq_refl)).
Defined.

(** X12.  Options outside the choice stop the command before any request.
    With an API key, a status name that is not one of open, pending,
    resolved, closed (for [list] and for [status]) or a priority outside
    1..4 (for [list]) ends the process with exit code 2: nothing is sent
    and nothing is printed. *)
Theorem options_checked_first (exc_str : exn → string)
    (environ : gmap string string) (a : Main.argv) (w : world) :
  truthy_str
    (Main.option_value (Main.opt_api_key a) environ "FRESHSERVICE_API_KEY")
    = true →
  Wire.allowed (Main.cmd a) = false →
  ∃ param,
    run (Main.main exc_str environ a) w = (Raise (BadParameter param), w)
    ∧ Main.process exc_str environ a w
      = (stdout w,
         {| Click.code := 2;
            Click.stderr := Click.UsageAndError (BadParameter param) |}).
Proof.
  intros Hkey Hbad.
  assert (∃ param, run (Main.main exc_str environ a) w
                   = (Raise (BadParameter param), w)) as [param Hrun].
  { unfold Main.main. rewrite run_bind, run_cli_ok by done.
    destruct (Main.cmd a) as [s p limit|n name limit|ticket_id|ticket_id s];
      simpl in Hbad; [| | discriminate |].
    - rewrite run_bind. unfold Click.Choice.
      destruct s as [name|].
      + destruct (bool_decide (name ∈ Main.status_choices)); [|by eexists].
        cbn [run mret IO_ret]. rewrite run_bind. unfold Click.IntRange.
        destruct p as [n|]; [|discriminate].
        simpl in Hbad. rewrite Hbad. by eexists.
      + cbn [run mret IO_ret]. rewrite run_bind. unfold Click.IntRange.
        destruct p as [n|]; [|discriminate].
        simpl in Hbad. rewrite Hbad. by eexists.
    - rewrite run_bind. unfold Click.IntRange.
      destruct ((1 <=? n)%Z && (n <=? 4)%Z); [|by eexists].
      cbn [run mret IO_ret]. rewrite run_bind. unfold Click.Choice.
      simpl in Hbad. rewrite Hbad. by eexists.
    - rewrite run_bind. unfold Click.Choice. rewrite Hbad. by eexists. }
  exists param. split; [exact Hrun|]. unfold Main.process. by rewrite Hrun.
Qed.

Lemma options_checked_first_witness :
  Wire.allowed (Main.Status 7 "done") = false
  ∧ Main.process Sample.exc_str ∅ (Sample.argv (Main.Status 7 "done"))
      (Sample.answering 200 None)
    = ([], {| Click.code := 2;
              Click.stderr := Click.UsageAndError (BadParameter "status") |})
  ∧ ∃ param,
      run (Main.main Sample.exc_str ∅
             (Sample.argv (Main.List None (Some 9%Z) 20)))
          (Sample.answering 200 None)
      = (Raise (BadParameter param), Sample.answering 200 None).
Proof.
  split; [reflexivity|]. split; [reflexivity|].
  destruct (options_checked_first Sample.exc_str ∅
              (Sample.argv (Main.List None (Some 9%Z) 20))
              (Sample.answering 200 None) eq_refl eq_refl)
    as (param & Hrun & _).
  exists param. exact Hrun.
Defined.

(** X13.  Where the key and the domain go.  With no [--api-key] and no
    [--domain], a key in FRESHSERVICE_API_KEY and a domain in
    FRESHSERVICE_DOMAIN (or the default "freshservice.com", when that
    variable is unset or empty) make [view] send one request: a GET to
    https://DOMAIN/api/v2/tickets/ID with the key as the user name of the
    basic authentication, "X" as its password, and the JSON content type.
    A key given with [--api-key] takes the place of the variable's. *)
Theorem view_request_of_environment (exc_str : exn → string)
    (environ : gmap string string) (given : option string) (key : string)
    (ticket_id : Z) (w : world) :
  Main.option_value given environ "FRESHSERVICE_API_KEY" = Some key →
  key ≠ "" →
  let domain :=
    match environ !! "FRESHSERVICE_DOMAIN" with
    | Some d => if String.eqb d "" then "freshservice.com" else d
    | None => "freshservice.com"
    end in
  sent (run (Main.main exc_str environ
               {| Main.opt_api_key := given; Main.opt_domain := None;
                  Main.cmd := Main.View ticket_id |}) w).2
    = sent w ++ [ {| method := GET;
                     url := ("https://" +:+ domain +:+ "/api/v2")
                            +:+ "/tickets/" +:+ pretty ticket_id;
                     auth := (key, "X");
                     headers := [("Content-Type", "application/json")];
                     json := None |} ]
  ∧ (∀ k, given = Some k → key = k)
  ∧ (given = None → environ !! "FRESHSERVICE_API_KEY" = Some key).
Proof.
  intros Hkey Hne domain. split; [|split].
  - unfold Main.main. cbn [Main.opt_api_key Main.opt_domain Main.cmd].
    rewrite Hkey. rewrite run_bind, run_cli_ok
      by (simpl; by destruct (String.eqb_spec key "")).
    rewrite view_sent.
    f_equal. f_equal. unfold Wire.get_request, Httpx.build_request. simpl.
    replace (default "freshservice.com"
               match environ !! "FRESHSERVICE_DOMAIN" with
               | Some v => if String.eqb v "" then None else Some v
               | None => None
               end) with domain; [done|].
    unfold domain.
    destruct (environ !! "FRESHSERVICE_DOMAIN") as [d|]; [|done].
    by destruct (String.eqb d "").
  - intros k ->. simpl in Hkey. congruence.
  - intros ->. unfold Main.option_value in Hkey.
    destruct (environ !! "FRESHSERVICE_API_KEY") as [v|]; [|done].
    by destruct (String.eqb v "").
Qed.

Lemma view_request_of_environment_witness :
  Main.option_value None
    {["FRESHSERVICE_API_KEY" := "secret"]} "FRESHSERVICE_API_KEY"
    = Some "secret"
  ∧ "secret" ≠ ""
  ∧ sent (run (Main.main Sample.exc_str {["FRESHSERVICE_API_KEY" := "secret"]}
                 {| Main.opt_api_key := None; Main.opt_domain := None;
                    Main.cmd := Main.View 42 |})
            (Sample.answering 404 None)).2
    = [ {| method := GET;
           url := "https://freshservice.com/api/v2/tickets/42";
           auth := ("secret", "X");
           headers := [("Content-Type", "application/json")];
           json := None |} ].
Proof.
  split; [reflexivity|]. split; [done|].
  exact (proj1 (view_request_of_environment Sample.exc_str
                  {["FRESHSERVICE_API_KEY" := "secret"]} None "secret" 42
                  (Sample.answering 404 None) eq_refl ltac:(done))).
Defined.

(** ** The texts of the table and of the detail view *)

Lemma int_table_get_same_text (table : list (Z * string)) (v : value)
    (sd : string) :
  int_table_get table v (str v) = Ok sd →
  ∃ x, int_table_get (prod_map id VStr <$> table) v v = Ok x ∧ str x = sd.
Proof.
  assert (Hfind : ∀ n,
    str (default v (snd <$> List.find (λ kv, (kv.1 =? n)%Z)
                               (prod_map id VStr <$> table)))
    = default (str v) (snd <$> List.find (λ kv, (kv.1 =? n)%Z) table)).
  { intros n. induction table as [|[k s] table IH]; [done|].
    simpl. destruct (k =? n)%Z; [done | exact IH]. }
  destruct v as [|b|n|f|s|l|d]; simpl; try discriminate;
    intros [= <-]; eexists; (split; [reflexivity|]);
    first [apply Hfind | reflexivity | idtac].
  destruct (PyFloat.to_int f); [apply Hfind | reflexivity].
Qed.

(** X15.  [list] and [view] name a status and a priority alike.  For a
    ticket [list] can show, [view] prints all its lines, and the text after
    "Status:" and after "Priority:" is the text of the status and priority
    columns of the row: the name for a known code, the value itself for any
    other. *)
Theorem list_and_view_same_names (exc_str : exn → string) (o : Main.obj)
    (ticket_id : Z) (w w1 : world) (t : Ticket.t) (row : string) :
  run (FreshserviceClient.get_ticket (Main.client o) ticket_id) w = (Ok t, w1) →
  Main.list_row t = Ok row →
  ∃ lines id_column subject_column status_text priority_text,
    run (Main.view exc_str o ticket_id) w = (Ok tt, printing lines w1)
    ∧ lines !! 7%nat = Some ("  Status:    " +:+ status_text)
    ∧ lines !! 8%nat = Some ("  Priority:  " +:+ priority_text)
    ∧ format_left 10 (Ticket.id t) = Ok id_column
    ∧ String.length subject_column = 40%nat
    ∧ row = id_column +:+ " " +:+ subject_column +:+ " "
            +:+ ljust 12 status_text +:+ " " +:+ ljust 10 priority_text.
Proof.
  intros Hget (s & c1 & sd & pd & Hs & Hc1 & Hsd & Hpd & ->)%list_row_inv.
  apply int_table_get_same_text in Hsd as (st & Hst & <-).
  apply int_table_get_same_text in Hpd as (pr & Hpr & <-).
  exists (Wire.view_lines t st pr), c1. eexists. exists (str st), (str pr).
  split; [by apply run_view_ok|].
  split; [reflexivity|]. split; [reflexivity|]. split; [exact Hc1|].
  split; [apply subject_column_width | reflexivity].
Qed.

Lemma list_and_view_same_names_witness :
  Main.list_row (Sample.assigned VNone)
  = Ok "7          Printer offline                          Pending      Medium    "
  ∧ ∃ lines,
      run (Main.view Sample.exc_str Sample.ctx 7)
          (Sample.answering 200 (Some (Sample.one_ticket VNone)))
      = (Ok tt,
         printing lines
           (sending (Wire.get_request Sample.client 7)
              (Sample.answering 200 (Some (Sample.one_ticket VNone)))))
      ∧ length lines = 13%nat.
Proof.
  split; [reflexivity|].
  destruct (list_and_view_same_names Sample.exc_str Sample.ctx 7
              (Sample.answering 200 (Some (Sample.one_ticket VNone))) _
              (Sample.assigned VNone) _ eq_refl eq_refl)
    as (lines & c1 & c2 & sd & pd & Hrun & _).
  exists lines. split; [exact Hrun|].
  assert (Hv : run (Main.view Sample.exc_str Sample.ctx 7)
                 (Sample.answering 200 (Some (Sample.one_ticket VNone)))
               = (Ok tt,
                  printing (Wire.view_lines (Sample.assigned VNone)
                              (VStr "Pending") (VStr "Medium"))
                    (sending (Wire.get_request Sample.client 7)
                       (Sample.answering 200
                          (Some (Sample.one_ticket VNone))))))
    by reflexivity.
  rewrite Hv in Hrun. injection Hrun as Hrun. by rewrite <- Hrun.
Defined.

(** ** More on [list] and [view] *)

(** X17.  The table.  When the server answers with success, the body parses
    and every ticket that is returned can be shown, [list] ends normally
    and prints, for a result that is not empty, the heading, a rule of 72
    dashes and one row per returned ticket, in the order of the result. *)
Theorem list_prints_table (o : Main.obj) (status : option string)
    (priority : option Z) (limit : Z) (w : world) (filters : dict)
    (code : Z) (data : value) (all : list Ticket.t) :
  Main.list_filters status priority = Ok filters →
  server w (Wire.list_request (Main.client o)) = Response code (Some data) →
  Wire.success code = true →
  FreshserviceClient.parse_tickets data = Ok all →
  let tickets :=
    slice_to limit (FreshserviceClient.apply_filters (Some filters) all) in
  Forall (λ t, Wire.showable t = true) tickets →
  tickets ≠ [] →
  ∃ rows,
    run (Main.list o status priority limit) w
    = (Ok tt,
       printing
         ("ID         Subject                                    Status       Priority   "
          :: replicate_char 72 "-" :: rows)
         (sending (Wire.list_request (Main.client o)) w))
    ∧ Forall2 (λ t row, Main.list_row t = Ok row) tickets rows
    ∧ length rows = length tickets.
Proof.
  intros Hf Hreply Hcode Hall tickets Hshow Hne.
  destruct (mapM_list_row tickets Hshow) as (rows & Hrows & Hall2).
  exists rows. split; [|split; [done | symmetry; by eapply Forall2_length]].
  rewrite (run_list_ok o status priority limit w
             (sending (Wire.list_request (Main.client o)) w) filters tickets
             rows Hf); [| | done].
  - by rewrite bool_decide_eq_false_2.
  - rewrite run_list_tickets, Hreply. unfold Wire.outcome, Wire.decoded.
    by rewrite Hcode, Hall.
Qed.

Lemma list_prints_table_witness :
  run (Main.list Sample.ctx (Some "closed") None 20)
      (Sample.answering 200 (Some Sample.three_tickets))
  = (Ok tt,
     printing
       ["ID         Subject                                    Status       Priority   ";
        "------------------------------------------------------------------------";
        "2          VPN drops every hour                     Closed       Low       ";
        "3          New laptop                               Closed       Low       "]
       (sending (Wire.list_request Sample.client)
          (Sample.answering 200 (Some Sample.three_tickets))))
  ∧ ∃ rows,
      (run (Main.list Sample.ctx (Some "closed") None 20)
         (Sample.answering 200 (Some Sample.three_tickets))).2
      = printing
          ("ID         Subject                                    Status       Priority   "
           :: replicate_char 72 "-" :: rows)
          (sending (Wire.list_request Sample.client)
             (Sample.answering 200 (Some Sample.three_tickets)))
      ∧ length rows = 2%nat.
Proof.
  split; [reflexivity|].
  destruct (list_prints_table Sample.ctx (Some "closed") None 20
              (Sample.answering 200 (Some Sample.three_tickets))
              [("status", VInt 5)] 200 Sample.three_tickets
              [Sample.ticket 1 2 "Printer offline";
               Sample.ticket 2 5 "VPN drops every hour";
               Sample.ticket 3 5 "New laptop"]
              eq_refl eq_refl eq_refl eq_refl
              ltac:(repeat constructor) ltac:(discriminate))
    as (rows & Hrun & _ & Hlen).
  exists rows. split; [by rewrite Hrun | exact Hlen].
Defined.

(** X19.  A ticket with nothing but an id.  When the server answers with
    success and the ticket object of the body has "id" and none of the
    other eight keys, [view] ends normally and shows the defaults: an empty
    subject and description, status 0, priority 0, empty dates, requester 0
    and "Unassigned". *)
Theorem view_of_id_only (exc_str : exn → string) (o : Main.obj)
    (ticket_id : Z) (w : world) (code : Z) (body d : dict) (v : value) :
  server w (Wire.get_request (Main.client o) ticket_id)
    = Response code (Some (VDict body)) →
  Wire.success code = true →
  dict_lookup "ticket" body = Some (VDict d) →
  dict_lookup "id" d = Some v →
  (∀ key, key ∈ Wire.ticket_keys → key ≠ "id" → key ∉ d.*1) →
  run (Main.view exc_str o ticket_id) w
  = (Ok tt,
     printing
       [ "Ticket #" +:+ str v;
         "============================================================";
         "Subject: ";
         "Description:";
         "";
         "";
         "Details:";
         "  Status:    0";
         "  Priority:  0";
         "  Created:   ";
         "  Updated:   ";
         "  Requester: 0";
         "  Assignee:  Unassigned" ]
       (sending (Wire.get_request (Main.client o) ticket_id) w)).
Proof.
  intros Hreply Hcode Hticket Hid Hrest.
  assert (Hparse : Ticket.from_dict (VDict d)
                   = Ticket.from_dict (VDict [("id", v)])).
  { apply from_dict_agree. intros key Hkey.
    destruct (String.eqb_spec key "id") as [->|Hne].
    - rewrite Hid. reflexivity.
    - rewrite (proj2 (dict_lookup_None key d)) by auto.
      cbn [dict_lookup]. by destruct (String.eqb_spec "id" key). }
  rewrite (run_view_ok exc_str o ticket_id w
             (sending (Wire.get_request (Main.client o) ticket_id) w)
             {| Ticket.id := v; Ticket.subject := VStr "";
                Ticket.description := VStr ""; Ticket.status := VInt 0;
                Ticket.priority := VInt 0; Ticket.created_at := VStr "";
                Ticket.updated_at := VStr ""; Ticket.requester_id := VInt 0;
                Ticket.responder_id := VNone |} (VInt 0) (VInt 0));
    [reflexivity | | reflexivity | reflexivity].
  rewrite run_get_ticket, Hreply. unfold Wire.outcome, Wire.decoded.
  rewrite Hcode. unfold FreshserviceClient.parse_ticket, dict_item.
  rewrite Hticket. unfold mbind, result_bind. rewrite Hparse. reflexivity.
Qed.

Lemma view_of_id_only_witness :
  run (Main.view Sample.exc_str Sample.ctx 7)
      (Sample.answering 200
         (Some (VDict [("ticket", VDict [("spam", VBool false);
                                         ("id", VInt 7)])])))
  = (Ok tt,
     printing
       [ "Ticket #7";
         "============================================================";
         "Subject: "; "Description:"; ""; ""; "Details:";
         "  Status:    0"; "  Priority:  0"; "  Created:   ";
         "  Updated:   "; "  Requester: 0"; "  Assignee:  Unassigned" ]
       (sending (Wire.get_request Sample.client 7)
          (Sample.answering 200
             (Some (VDict [("ticket", VDict [("spam", VBool false);
                                             ("id", VInt 7)])]))))).
Proof.
  refine (view_of_id_only Sample.exc_str Sample.ctx 7
            (Sample.answering 200
               (Some (VDict [("ticket", VDict [("spam", VBool false);
                                               ("id", VInt 7)])])))
            200 [("ticket", VDict [("spam", VBool false); ("id", VInt 7)])]
            [("spam", VBool false); ("id", VInt 7)] (VInt 7)
            eq_refl eq_refl eq_refl eq_refl _).
  intros key Hkey Hne. unfold Wire.ticket_keys in Hkey. simpl.
  repeat (apply elem_of_cons in Hkey as [->|Hkey];
          [first [done | by repeat (apply not_elem_of_cons; split; [done|]);
                           apply not_elem_of_nil]|]).
  by apply elem_of_nil in Hkey.
Defined.

(** ** The rows [list] prints *)

Lemma list_row_widths (ticket : Ticket.t) (row : string) :
  Main.list_row ticket = Ok row →
  ∃ id_column subject_column rest,
    format_left 10 (Ticket.id ticket) = Ok id_column
    ∧ String.length subject_column = 40%nat
    ∧ row = id_column +:+ " " +:+ subject_column +:+ " " +:+ rest
    ∧ (75 ≤ String.length row)%nat
    ∧ (∀ n st pr,
         Ticket.id ticket = VInt n → (String.length (pretty n) ≤ 10)%nat →
         Ticket.status ticket = VInt st → (2 ≤ st ≤ 5)%Z →
         Ticket.priority ticket = VInt pr → (1 ≤ pr ≤ 4)%Z →
         String.length row = 75%nat).
Proof.
  intros (s & c1 & sd & pd & Hs & Hc1 & Hsd & Hpd & ->)%list_row_inv.
  pose proof (subject_column_width s) as Hcol.
  pose proof (format_left_length _ _ _ Hc1) as Hid.
  exists c1. eexists. eexists.
  split; [exact Hc1|]. split; [exact Hcol|]. split; [reflexivity|].
  rewrite !string_app_length, Hcol, !length_ljust. simpl String.length.
  split; [lia|].
  intros n st pr Hn Hlen Hst Hrange Hpr Hrange'.
  rewrite Hn in Hc1. simpl in Hc1. injection Hc1 as <-.
  rewrite length_ljust.
  rewrite Hst in Hsd. rewrite Hpr in Hpd.
  assert (String.length sd ≤ 12)%nat.
  { assert (st = 2 ∨ st = 3 ∨ st = 4 ∨ st = 5)%Z as [-> | [-> | [-> | ->]]]
      by lia; injection Hsd as <-; simpl; lia. }
  assert (String.length pd ≤ 10)%nat.
  { assert (pr = 1 ∨ pr = 2 ∨ pr = 3 ∨ pr = 4)%Z as [-> | [-> | [-> | ->]]]
      by lia; injection Hpd as <-; simpl; lia. }
  lia.
Qed.

(** X14.  The rows of the table have a fixed width.  When [list] has
    tickets to show, the row it prints at each place is the row of the
    ticket at that place: the id column, a space, a subject column of
    exactly 40 characters whatever the subject is, a space, and the rest.
    Every row has at least 75 characters, and exactly 75 when the id is an
    integer of at most ten characters, the status one of the integers 2..5
    and the priority one of the integers 1..4. *)
Theorem list_rows_width (o : Main.obj) (status : option string)
    (priority : option Z) (limit : Z) (w w1 : world) (filters : dict)
    (tickets : list Ticket.t) :
  Main.list_filters status priority = Ok filters →
  run (FreshserviceClient.list_tickets (Main.client o) (Some filters) limit) w
    = (Ok tickets, w1) →
  tickets ≠ [] →
  ∃ rows,
    (run (Main.list o status priority limit) w).2
      = printing (Wire.table rows) w1
    ∧ ∀ i t row, tickets !! i = Some t → rows !! i = Some row →
        ∃ id_column subject_column rest,
          format_left 10 (Ticket.id t) = Ok id_column
          ∧ String.length subject_column = 40%nat
          ∧ row = id_column +:+ " " +:+ subject_column +:+ " " +:+ rest
          ∧ (75 ≤ String.length row)%nat
          ∧ (∀ n st pr,
               Ticket.id t = VInt n → (String.length (pretty n) ≤ 10)%nat →
               Ticket.status t = VInt st → (2 ≤ st ≤ 5)%Z →
               Ticket.priority t = VInt pr → (1 ≤ pr ≤ 4)%Z →
               String.length row = 75%nat).
Proof.
  intros Hf Hget Hne.
  pose proof (run_list_cases o status priority limit filters w w1 _ Hf Hget)
    as Hcases. cbv beta iota in Hcases.
  rewrite bool_decide_eq_false_2 in Hcases by done.
  destruct Hcases as (rows & Hall & Hrun).
  exists rows. split.
  - by destruct Hrun as [(_ & ->)|(t & e & _ & _ & ->)].
  - intros i t row Ht Hrow.
    assert (Hi : (i < length rows)%nat) by (by eapply lookup_lt_Some).
    assert (Hti : take (length rows) tickets !! i = Some t)
      by (by rewrite lookup_take_lt).
    pose proof (Forall2_lookup_lr _ _ _ _ _ _ Hall Hti Hrow) as Hr.
    by apply list_row_widths.
Qed.

Lemma list_rows_width_witness :
  Main.list_filters (Some "closed") None = Ok [("status", VInt 5)]
  ∧ ∃ rows,
      (run (Main.list Sample.ctx (Some "closed") None 20)
         (Sample.answering 200 (Some Sample.three_tickets))).2
      = printing (Wire.table rows)
          (sending (Wire.list_request Sample.client)
             (Sample.answering 200 (Some Sample.three_tickets)))
      ∧ Forall (λ row, String.length row = 75%nat) rows
      ∧ length rows = 2%nat.
Proof.
  split; [reflexivity|].
  destruct (list_rows_width Sample.ctx (Some "closed") None 20
              (Sample.answering 200 (Some Sample.three_tickets)) _
              [("status", VInt 5)] _ eq_refl eq_refl ltac:(discriminate))
    as (rows & Hrun & _).
  exists rows. split; [exact Hrun|].
  assert (Hv : (run (Main.list Sample.ctx (Some "closed") None 20)
                  (Sample.answering 200 (Some Sample.three_tickets))).2
               = printing
                   (Wire.table
                      ["2          VPN drops every hour                     Closed       Low       ";
                       "3          New laptop                               Closed       Low       "])
                   (sending (Wire.list_request Sample.client)
                      (Sample.answering 200 (Some Sample.three_tickets))))
    by reflexivity.
  rewrite Hv in Hrun. injection Hrun as <-.
  split; [|reflexivity]. repeat constructor.
Defined.

Lemma status_label_of_equal (v : value) (code : Z) (label dflt : string) :
  (code, label) ∈ [(2%Z, "Open"); (3%Z, "Pending"); (4%Z, "Resolved");
                   (5%Z, "Closed")] →
  py_eq v (VInt code) = true →
  int_table_get
    [(2, "Open"); (3, "Pending"); (4, "Resolved"); (5, "Closed")]%Z v dflt
  = Ok label.
Proof.
  intros Hin [->|[(b & -> & Hb)|(f & -> & Hf)]]%py_eq_int_cases.
  - repeat (apply elem_of_cons in Hin as [[= -> ->]|Hin]);
      try reflexivity. by apply elem_of_nil in Hin.
  - exfalso.
    repeat (apply elem_of_cons in Hin as [[= -> ->]|Hin]);
      [..|by apply elem_of_nil in Hin]; by destruct b.
  - simpl. rewrite Hf.
    repeat (apply elem_of_cons in Hin as [[= -> ->]|Hin]);
      try reflexivity. by apply elem_of_nil in Hin.
Qed.

(** X16.  One name, one code, one label.  For each status name (open, 2,
    Open; pending, 3, Pending; resolved, 4, Resolved; closed, 5, Closed):
    the code [status] puts in its request is the code the filters of
    [list --status] hold; the filter comprehension keeps every ticket of a
    response whose status is that code; and whatever the server answers,
    every row [list --status NAME] prints is the row of a ticket whose
    status equals the code, with the label in its status column. *)
Theorem status_name_code_label (exc_str : exn → string) (name : string)
    (code : Z) (label : string) :
  (name, code, label) ∈ [("open", 2%Z, "Open"); ("pending", 3%Z, "Pending");
                         ("resolved", 4%Z, "Resolved");
                         ("closed", 5%Z, "Closed")] →
  (∀ o ticket_id w,
     sent (run (Main.status exc_str o ticket_id name) w).2
       = sent w ++ [Wire.put_request (Main.client o) ticket_id code])
  ∧ (∀ priority,
       ∃ filters,
         Main.list_filters (Some name) priority = Ok filters
         ∧ dict_lookup "status" filters = Some (VInt code))
  ∧ (∀ filters all t,
       dict_lookup "status" filters = Some (VInt code) →
       dict_lookup "priority" filters = None →
       t ∈ all → Ticket.status t = VInt code →
       t ∈ FreshserviceClient.apply_filters (Some filters) all)
  ∧ (∀ o priority limit w,
       ∃ lines,
         stdout (run (Main.list o (Some name) priority limit) w).2
           = stdout w ++ lines
         ∧ (lines = [] ∨ lines = ["No tickets found."]
            ∨ ∃ tickets rows,
                lines = Wire.table rows
                ∧ Forall2 (λ t row,
                     py_eq (Ticket.status t) (VInt code) = true
                     ∧ ∃ id_column subject_column priority_text,
                         format_left 10 (Ticket.id t) = Ok id_column
                         ∧ String.length subject_column = 40%nat
                         ∧ row = id_column +:+ " " +:+ subject_column
                                 +:+ " " +:+ ljust 12 label
                                 +:+ " " +:+ ljust 10 priority_text)
                    tickets rows)).
Proof.
  intros Hin.
  assert (Hcode : (name, code) ∈
            [("open", 2); ("pending", 3); ("resolved", 4); ("closed", 5)]%Z).
  { repeat (apply elem_of_cons in Hin as [[= -> -> ->]|Hin]);
      [..|by apply elem_of_nil in Hin];
      repeat first [apply list_elem_of_here | apply list_elem_of_further]. }
  assert (Hlabel : (code, label) ∈
            [(2%Z, "Open"); (3%Z, "Pending"); (4%Z, "Resolved");
             (5%Z, "Closed")]).
  { repeat (apply elem_of_cons in Hin as [[= -> -> ->]|Hin]);
      [..|by apply elem_of_nil in Hin];
      repeat first [apply list_elem_of_here | apply list_elem_of_further]. }
  assert (Hmap : ∀ priority, ∃ filters,
            Main.list_filters (Some name) priority = Ok filters
            ∧ dict_lookup "status" filters = Some (VInt code)).
  { intros priority.
    assert (∃ filters, Main.list_filters (Some name) priority = Ok filters)
      as [filters Hf].
    { clear Hlabel Hin.
      repeat (apply elem_of_cons in Hcode as [[= -> ->]|Hcode]);
        [..|by apply elem_of_nil in Hcode];
        unfold Main.list_filters; simpl;
        destruct priority as [p|]; try destruct (p =? 0)%Z; simpl; eauto. }
    exists filters. split; [exact Hf|]. by eapply list_filters_status. }
  split; [|split; [exact Hmap|split]].
  - intros o ticket_id w.
    rewrite (run_status _ _ _ _ _ _ (status_code_of_name _ _ Hcode)).
    by destruct (Wire.outcome _ _).
  - intros filters all t Hst Hpr Ht Hcode_t.
    rewrite apply_filters_filter, list_elem_of_In, filter_In.
    split; [by apply list_elem_of_In|].
    unfold Wire.passes. rewrite Hst, Hpr, Hcode_t.
    apply andb_true_iff. split; [|done].
    apply py_eq_int_cases. by left.
  - intros o priority limit w.
    destruct (Hmap priority) as (filters & Hf & Hst).
    destruct (list_prints o (Some name) priority limit filters w Hf)
      as (lines & Hout & Hlines).
    exists lines. split; [exact Hout|].
    destruct Hlines as [->|[->|(all & w1 & tickets & rows & Hget & Hpre
                                & -> & Hrows)]]; [auto | auto |].
    right. right. exists tickets, rows. split; [done|].
    assert (Hall : Forall (λ t, py_eq (Ticket.status t) (VInt code) = true)
                     tickets).
    { apply (prefix_Forall _ _ _ Hpre).
      apply list_tickets_returned in Hget
        as (c & data & parsed & _ & _ & _ & ->).
      by apply Forall_slice_to, apply_filters_status. }
    clear Hpre Hget Hout. revert Hall.
    induction Hrows as [|t row tickets rows Hrow _ IH]; intros Hall;
      [constructor|].
    apply Forall_cons in Hall as [Ht Hall].
    constructor; [|by apply IH].
    split; [exact Ht|].
    apply list_row_inv in Hrow
      as (s & c1 & sd & pd & Hs & Hc1 & Hsd & Hpd & ->).
    rewrite (status_label_of_equal _ _ _ _ Hlabel Ht) in Hsd.
    injection Hsd as <-.
    exists c1. eexists. exists pd.
    split; [exact Hc1|]. split; [apply subject_column_width|]. reflexivity.
Qed.

Lemma status_name_code_label_witness :
  ("closed", 5%Z, "Closed") ∈
    [("open", 2%Z, "Open"); ("pending", 3%Z, "Pending");
     ("resolved", 4%Z, "Resolved"); ("closed", 5%Z, "Closed")]
  ∧ sent (run (Main.status Sample.exc_str Sample.ctx 7 "closed")
            (Sample.answering 200 None)).2
    = [Wire.put_request Sample.client 7 5]
  ∧ ∃ filters,
      Main.list_filters (Some "closed") None = Ok filters
      ∧ dict_lookup "status" filters = Some (VInt 5).
Proof.
  assert (Hin : ("closed", 5%Z, "Closed") ∈
            [("open", 2%Z, "Open"); ("pending", 3%Z, "Pending");
             ("resolved", 4%Z, "Resolved"); ("closed", 5%Z, "Closed")])
    by (do 3 apply list_elem_of_further; apply list_elem_of_here).
  split; [exact Hin|].
  destruct (status_name_code_label Sample.exc_str "closed" 5 "Closed" Hin)
    as (H1 & H2 & _).
  split; [exact (H1 Sample.ctx 7%Z (Sample.answering 200 None)) | exact (H2 None)].
Defined.

(** X18.  [--priority].  For a priority [p] of 1..4, with no [--status] or
    a status name of the choice, the filters of [list] hold [p] under
    "priority", and whatever the server answers, every row [list] prints is
    the row of a ticket that [list_tickets] returned and whose priority
    equals [p] in the sense of [==]: the integer [p], the float of that
    value, or [True] when [p] is 1. *)
Theorem list_priority_option (o : Main.obj) (status : option string)
    (p : Z) (limit : Z) (w : world) :
  (1 ≤ p ≤ 4)%Z →
  status = None ∨ (∃ name, status = Some name ∧ name ∈ Main.status_choices) →
  ∃ filters lines,
    Main.list_filters status (Some p) = Ok filters
    ∧ dict_lookup "priority" filters = Some (VInt p)
    ∧ stdout (run (Main.list o status (Some p) limit) w).2 = stdout w ++ lines
    ∧ (lines = [] ∨ lines = ["No tickets found."]
       ∨ ∃ all w1 tickets rows,
           run (FreshserviceClient.list_tickets (Main.client o)
                  (Some filters) limit) w = (Ok all, w1)
           ∧ tickets `prefix_of` all
           ∧ lines = Wire.table rows
           ∧ Forall2 (λ t row,
                Main.list_row t = Ok row
                ∧ (Ticket.priority t = VInt p
                   ∨ (∃ b, Ticket.priority t = VBool b ∧ Z.b2z b = p)
                   ∨ (∃ f, Ticket.priority t = VFloat f
                           ∧ PyFloat.to_int f = Some p)))
               tickets rows).
Proof.
  intros Hp Hstatus.
  assert (∃ filters, Main.list_filters status (Some p) = Ok filters
            ∧ dict_lookup "priority" filters = Some (VInt p))
    as (filters & Hf & Hlook).
  { unfold Main.list_filters.
    destruct (Z.eqb_spec p 0); [lia|].
    destruct Hstatus as [->|(name & -> & Hname)].
    - simpl. eauto.
    - unfold Main.status_choices in Hname.
      repeat (apply elem_of_cons in Hname as [->|Hname]);
        [..|by apply elem_of_nil in Hname]; simpl; eauto. }
  destruct (list_prints o status (Some p) limit filters w Hf)
    as (lines & Hout & Hlines).
  exists filters, lines. split; [exact Hf|]. split; [exact Hlook|].
  split; [exact Hout|].
  destruct Hlines as [->|[->|(all & w1 & tickets & rows & Hget & Hpre
                              & -> & Hrows)]]; [auto | auto |].
  right. right. exists all, w1, tickets, rows.
  repeat (split; [done|]).
  apply Forall2_with_left; [|exact Hrows].
  apply (prefix_Forall _ _ _ Hpre).
  apply list_tickets_returned in Hget as (c & data & parsed & _ & _ & _ & ->).
  apply Forall_slice_to.
  eapply Forall_impl; [by apply apply_filters_priority|].
  intros t Ht. by apply py_eq_int_cases.
Qed.

Lemma list_priority_option_witness :
  (1 ≤ 1 ≤ 4)%Z
  ∧ ∃ filters lines,
      Main.list_filters (Some "closed") (Some 1%Z) = Ok filters
      ∧ dict_lookup "priority" filters = Some (VInt 1)
      ∧ stdout (run (Main.list Sample.ctx (Some "closed") (Some 1%Z) 1)
                  (Sample.answering 200 (Some Sample.three_tickets))).2
        = lines
      ∧ lines
        = Wire.table
            ["2          VPN drops every hour                     Closed       Low       "].
Proof.
  split; [lia|].
  destruct (list_priority_option Sample.ctx (Some "closed") 1 1
              (Sample.answering 200 (Some Sample.three_tickets))
              ltac:(lia)) as (filters & lines & Hf & Hlook & Hout & _).
  { right. exists "closed". split; [reflexivity|].
    do 3 apply list_elem_of_further. apply list_elem_of_here. }
  exists filters, lines. split; [exact Hf|]. split; [exact Hlook|].
  split; [exact Hout|].
  assert (Hv : stdout (run (Main.list Sample.ctx (Some "closed") (Some 1%Z) 1)
                         (Sample.answering 200 (Some Sample.three_tickets))).2
               = Wire.table
                   ["2          VPN drops every hour                     Closed       Low       "])
    by reflexivity.
  rewrite Hv in Hout. simpl in Hout. by rewrite <- Hout.
Defined.
